(** * src/apiService.ts: the retry wrapper and the four Tieba endpoint calls

    A shallow embedding of [withRetry], [login], [getTiebaList], [getTbs] and
    [signTieba].

    Conventions of the embedding:
    - JavaScript numbers that the code handles (HTTP status codes, the retry
      counter, delays in milliseconds, numeric JSON fields) are integers and
      are modelled by [Z]; on them the code only multiplies, increments and
      compares, which is exact on integers of magnitude below 2^53
      ([isSafeInteger]). A product beyond that bound is rounded by the code
      and not by the model, so the theorems that give the delays as closed
      arithmetic expressions take the bound as a hypothesis.
    - A value that came out of [JSON.parse] (axios' [response.data]) is a
      [JSValue]; [undefined] is a value of its own, as at run time.
    - An [async] function is a state-passing function on the world it acts
      on, returning a [Completion]: a result or a thrown error.
    - The [while (true)] loop of [withRetry] takes fuel; lemma
      [withRetry_loop_terminates] shows how much is enough. *)

From Stdlib Require Import ZArith List String Bool Lia Sorted.
Import ListNotations.

Local Open Scope string_scope.
Local Open Scope Z_scope.

#[local] Set Warnings "-register-all".

(** ** JavaScript values *)

Inductive JSValue : Type :=
| JUndefined
| JNull
| JBool (b : bool)
| JNumber (n : Z)
| JString (s : string)
| JArray (items : list JSValue)
| JObject (fields : list (string * JSValue)).

(** ToBoolean: [undefined], [null], [false], [0] and the empty string are
    falsy, every array and object is truthy. *)
Definition truthy (v : JSValue) : bool :=
  match v with
  | JUndefined | JNull => false
  | JBool b => b
  | JNumber n => negb (n =? 0)
  | JString s => negb (s =? "")%string
  | JArray _ | JObject _ => true
  end.

(** [v === n] and [v === s] against a number or string literal. *)
Definition strict_eq_number (v : JSValue) (n : Z) : bool :=
  match v with JNumber m => m =? n | _ => false end.

Definition strict_eq_string (v : JSValue) (s : string) : bool :=
  match v with JString t => (t =? s)%string | _ => false end.

(** [a || b] on values. *)
Definition js_or (a b : JSValue) : JSValue := if truthy a then a else b.

(** Own properties of an object, as an association list (keys are unique
    after [JSON.parse]). *)
Fixpoint lookup (k : string) (fields : list (string * JSValue)) : JSValue :=
  match fields with
  | [] => JUndefined
  | (k', v) :: rest => if (k' =? k)%string then v else lookup k rest
  end.

(** A template literal, kept symbolic: its literal chunks and what is
    interpolated between them. *)
Inductive part : Type :=
| Lit (s : string)              (* literal text, or an interpolated string *)
| Num (n : Z)                   (* an interpolated number *)
| Interp (v : JSValue)          (* an interpolated value *)
| InterpLength (v : JSValue).   (* the interpolation of v.length *)

Definition text := list part.

(** ** Errors and completions *)

Record AxiosResponse : Type := mkResponse { status : Z; data : JSValue }.

(** What the code reads of a thrown value: [message], and [response] when
    axios attached one (a reply with a status outside 2xx). *)
Record JSError : Type := mkError {
  name : string;
  message : text;
  response : option AxiosResponse
}.

(** [new Error(msg)] *)
Definition Error (msg : text) : JSError :=
  {| name := "Error"; message := msg; response := None |}.

(** The TypeError of a property read on [undefined] or [null]. *)
Definition TypeError (base : JSValue) (key : string) : JSError :=
  {| name := "TypeError";
     message := [Lit "Cannot read properties of "; Interp base;
                 Lit " (reading '"; Lit key; Lit "')"];
     response := None |}.

Inductive Completion (T : Type) : Type :=
| Return (v : T)
| Throw (error : JSError).
Arguments Return {T} v.
Arguments Throw {T} error.

(** [base.key], for keys that are no built-in property of strings, numbers
    or arrays (all keys read by this file are such). *)
Definition getProp (base : JSValue) (key : string) : Completion JSValue :=
  match base with
  | JUndefined | JNull => Throw (TypeError base key)
  | JObject fields => Return (lookup key fields)
  | _ => Return JUndefined
  end.

(** [base?.key] *)
Definition getPropOpt (base : JSValue) (key : string) : Completion JSValue :=
  match base with
  | JUndefined | JNull => Return JUndefined
  | _ => getProp base key
  end.

(** ** Asynchronous code as a state and exception monad *)

Module Async.

Definition M (W A : Type) : Type := W -> Completion A * W.

Definition ret {W A} (a : A) : M W A := fun w => (Return a, w).

Definition throw {W A} (e : JSError) : M W A := fun w => (Throw e, w).

Definition bind {W A B} (m : M W A) (k : A -> M W B) : M W B :=
  fun w =>
    match m w with
    | (Return a, w') => k a w'
    | (Throw e, w') => (Throw e, w')
    end.

(** A synchronous sub-expression that may throw. *)
Definition lift {W A} (c : Completion A) : M W A := fun w => (c, w).

End Async.

Declare Scope async_scope.
Delimit Scope async_scope with async.
Notation "x <- m ;; k" := (Async.bind m (fun x => k))
  (at level 100, m at next level, right associativity) : async_scope.
Notation "m ;; k" := (Async.bind m (fun _ => k))
  (at level 100, right associativity) : async_scope.

(** ** withRetry *)

(* 全局配置 *)
Definition MAX_RETRIES : Z := 3.
Definition RETRY_DELAY : Z := 3000.
Definition RETRY_MULTIPLIER : Z := 2.

(** What [withRetry] itself does, in order: it calls [requestFn], writes to
    the console, and sleeps. *)
Inductive Effect : Type :=
| Invoke
| ConsoleError (line : text)
| ConsoleWarn (line : text)
| Sleep (ms : Z).

(** [axiosError.response && axiosError.response.status === 429] *)
Definition isRateLimited (error : JSError) : bool :=
  match response error with
  | Some r => status r =? 429
  | None => false
  end.

(** [axiosError.response && axiosError.response.status >= 400
     && axiosError.response.status < 500] *)
Definition isClientError (error : JSError) : bool :=
  match response error with
  | Some r => (status r >=? 400) && (status r <? 500)
  | None => false
  end.

Definition errorLine (operationName : string) (retries : Z) (error : JSError) : text :=
  ([Lit "❌ "; Lit operationName; Lit "失败(尝试 "; Num retries; Lit "次): "]
    ++ message error)%list.

Definition rateLimitLine (delay retries maxRetries : Z) : text :=
  [Lit "⏳ 请求被限流，将在 "; Num delay; Lit "ms 后重试 (";
   Num retries; Lit "/"; Num maxRetries; Lit ")..."].

Definition retryLine (operationName : string) (delay retries maxRetries : Z) : text :=
  [Lit "⏳ "; Lit operationName; Lit "失败，将在 "; Num delay; Lit "ms 后重试 (";
   Num retries; Lit "/"; Num maxRetries; Lit ")..."].

Definition Outcome (W T : Type) : Type := Completion T * W * list Effect.

(** The effects [pre] happened before those of the rest of the run. *)
Definition after {W T} (pre : list Effect) (r : option (Outcome W T))
  : option (Outcome W T) :=
  match r with
  | Some (c, w, tr) => Some (c, w, (pre ++ tr)%list)
  | None => None
  end.

Section WithRetry.

Context {W T : Type}.
Variable requestFn : Async.M W T.
Variable operationName : string.
Variables maxRetries delayMultiplier : Z.

(** The loop, from the values of [retries] and [delay] at its head. *)
Fixpoint withRetry_loop (fuel : nat) (retries delay : Z) (w : W)
  : option (Outcome W T) :=
  match fuel with
  | O => None
  | S fuel =>
      match requestFn w with
      | (Return v, w) => Some (Return v, w, [Invoke])
      | (Throw error, w) =>
          let retries := retries + 1 in
          if (retries >? maxRetries)
             || (negb (isRateLimited error) && isClientError error)
          then
            Some (Throw error, w,
                  [Invoke; ConsoleError (errorLine operationName retries error)])
          else if isRateLimited error then
            let delay := delay * delayMultiplier * 2 in
            after [Invoke;
                   ConsoleWarn (rateLimitLine delay retries maxRetries);
                   Sleep delay]
                  (withRetry_loop fuel retries delay w)
          else
            let delay := delay * delayMultiplier in
            after [Invoke;
                   ConsoleWarn (retryLine operationName delay retries maxRetries);
                   Sleep delay]
                  (withRetry_loop fuel retries delay w)
      end
  end.

End WithRetry.

Definition withRetry {W T} (fuel : nat) (requestFn : Async.M W T)
    (operationName : string) (maxRetries initialDelay delayMultiplier : Z)
  : W -> option (Outcome W T) :=
  withRetry_loop requestFn operationName maxRetries delayMultiplier
                 fuel 0 initialDelay.

(** A call that leaves the three optional parameters to their defaults. *)
Definition withRetry_defaults {W T} (fuel : nat) (requestFn : Async.M W T)
    (operationName : string) : W -> option (Outcome W T) :=
  withRetry fuel requestFn operationName MAX_RETRIES RETRY_DELAY RETRY_MULTIPLIER.

(** Reading a run: how often [requestFn] was called, and the sleeps. *)
Fixpoint invocations (tr : list Effect) : nat :=
  match tr with
  | [] => O
  | Invoke :: tr => S (invocations tr)
  | _ :: tr => invocations tr
  end.

Fixpoint sleeps (tr : list Effect) : list Z :=
  match tr with
  | [] => []
  | Sleep ms :: tr => ms :: sleeps tr
  | _ :: tr => sleeps tr
  end.

(** ** The HTTP transport and the world of the endpoint calls *)

Inductive Method : Type := GET | POST.

Record Request : Type := mkRequest {
  method : Method;
  url : string;
  headers : list (string * string);
  body : option string
}.

(** An axios call resolves with a response or rejects with an error. *)
Inductive AxiosResult : Type :=
| Resolved (r : AxiosResponse)
| Rejected (e : JSError).

(** What the endpoint calls act on: the requests sent so far (oldest
    first), the lines of [console.log], and the state of the generator
    behind [generateDeviceId]. *)
Record World (RNG : Type) : Type := mkWorld {
  sent : list Request;
  console : list text;
  rng : RNG
}.
Arguments mkWorld {RNG} sent console rng.
Arguments sent {RNG} w.
Arguments console {RNG} w.
Arguments rng {RNG} w.

(** The world once [req] has gone out. *)
Definition afterRequest {RNG} (w : World RNG) (req : Request) : World RNG :=
  mkWorld (sent w ++ [req])%list (console w) (rng w).

Record UserInfo : Type := mkUserInfo {
  ui_status : Z;
  ui_bduss : string;
  userId : JSValue;
  isValid : bool;
  deviceId : string
}.

(** Synchronous evaluation that may throw: sequencing and [a || b] on
    conditions, which does not evaluate [b] when [a] is true. *)
Definition andThen {A B} (c : Completion A) (k : A -> Completion B) : Completion B :=
  match c with
  | Return a => k a
  | Throw e => Throw e
  end.

Definition orElse (a b : Completion bool) : Completion bool :=
  andThen a (fun x => if x then Return true else b).

(** Modelled from the spec: [generateDeviceId] of [./utils] is imported by
    apiService.ts and its source is not part of it. The spec describes it as
    the helper that produces a pseudo-random device identifier, and states
    that the identifier attached to a successful authentication is
    non-empty. *)
Definition DeviceIdentityHelper {RNG} (generateDeviceId : RNG -> string * RNG) : Prop :=
  forall g, fst (generateDeviceId g) <> ""%string.

Definition mobileUserAgent : string :=
  "Mozilla/5.0 (iPhone; CPU iPhone OS 14_0 like Mac OS X) AppleWebKit/605.1.15 (KHTML, like Gecko) Mobile/15E148 Safari/604.1".

Definition desktopUserAgent : string :=
  "Mozilla/5.0 (Windows NT 10.0; Win64; x64) AppleWebKit/537.36 (KHTML, like Gecko) Chrome/84.0.4147.135 Safari/537.36 Edg/84.0.522.63".

Section Endpoints.

Context {RNG : Type}.

(** The server and the network: the answer to a request, given the requests
    sent before it. *)
Variable transport : list Request -> Request -> AxiosResult.

(** The two helpers imported from [./utils]. *)
Variable generateDeviceId : RNG -> string * RNG.
Variable toQueryString : list (string * string) -> string.

Definition axios (req : Request) : Async.M (World RNG) AxiosResponse :=
  fun w =>
    (match transport (sent w) req with
     | Resolved r => Return r
     | Rejected e => Throw e
     end,
     afterRequest w req).

Definition axios_get (url : string) (headers : list (string * string))
  : Async.M (World RNG) AxiosResponse :=
  axios (mkRequest GET url headers None).

Definition axios_post (url : string) (payload : string)
    (headers : list (string * string)) : Async.M (World RNG) AxiosResponse :=
  axios (mkRequest POST url headers (Some payload)).

Definition console_log (line : text) : Async.M (World RNG) unit :=
  fun w => (Return tt, mkWorld (sent w) (console w ++ [line])%list (rng w)).

Definition callGenerateDeviceId : Async.M (World RNG) string :=
  fun w =>
    let (id, g) := generateDeviceId (rng w) in
    (Return id, mkWorld (sent w) (console w) g).

(** *** login *)

Definition login_headers (bduss : string) : list (string * string) :=
  [("Cookie", "BDUSS=" ++ bduss);
   ("Accept", "application/json, text/javascript, */*; q=0.01");
   ("Accept-Encoding", "gzip, deflate, br");
   ("Accept-Language", "zh-CN,zh;q=0.9,en;q=0.8,en-GB;q=0.7,en-US;q=0.6");
   ("Connection", "keep-alive");
   ("Host", "tieba.baidu.com");
   ("Referer", "https://tieba.baidu.com/home/main");
   ("User-Agent", mobileUserAgent)]%string.

Definition invalidBduss : JSError := Error [Lit "验证BDUSS失败，可能已过期"].

(** The function passed to [withRetry] by [login]. *)
Definition login_request (bduss : string) : Async.M (World RNG) UserInfo :=
  (response <- axios_get "https://tieba.baidu.com/mo/q/sync" (login_headers bduss);;
   rejected <- Async.lift
     (orElse (Return (negb (truthy (data response))))
     (orElse (andThen (getProp (data response) "no")
                      (fun no => Return (negb (strict_eq_number no 0))))
             (andThen (getProp (data response) "error")
                      (fun e => Return (negb (strict_eq_string e "success"))))));;
   if rejected : bool then Async.throw invalidBduss
   else
     inner <- Async.lift (getProp (data response) "data");;
     userId <- Async.lift (getProp inner "user_id");;
     deviceId <- callGenerateDeviceId;;
     console_log [Lit "🔐 验证BDUSS成功"];;
     Async.ret (mkUserInfo 200 bduss userId true deviceId))%async.

Definition login (fuel : nat) (bduss : string)
  : World RNG -> option (Outcome (World RNG) UserInfo) :=
  withRetry_defaults fuel (login_request bduss) "验证BDUSS".

(** *** getTiebaList *)

Definition getTiebaList_headers (bduss : string) : list (string * string) :=
  [("Cookie", "BDUSS=" ++ bduss);
   ("Content-Type", "application/octet-stream");
   ("Referer", "https://tieba.baidu.com/index/tbwise/forum");
   ("User-Agent", mobileUserAgent)]%string.

Definition getTiebaList_request (bduss : string) : Async.M (World RNG) JSValue :=
  (response <- axios_get "https://tieba.baidu.com/mo/q/newmoindex"
                         (getTiebaList_headers bduss);;
   rejected <- Async.lift
     (orElse (Return (negb (truthy (data response))))
             (andThen (getProp (data response) "error")
                      (fun e => Return (negb (strict_eq_string e "success")))));;
   if rejected : bool then
     error_msg <- Async.lift (getPropOpt (data response) "error_msg");;
     Async.throw (Error [Lit "获取贴吧列表失败: ";
                         Interp (js_or error_msg (JString "未知错误"))])
   else
     inner <- Async.lift (getProp (data response) "data");;
     like_forum <- Async.lift (getProp inner "like_forum");;
     let tiebaList := js_or like_forum (JArray []) in
     console_log [Lit "🔍 获取贴吧列表成功, 共 "; InterpLength tiebaList;
                  Lit " 个贴吧"];;
     Async.ret tiebaList)%async.

Definition getTiebaList (fuel : nat) (bduss : string)
  : World RNG -> option (Outcome (World RNG) JSValue) :=
  withRetry_defaults fuel (getTiebaList_request bduss) "获取贴吧列表".

(** *** getTbs *)

Definition getTbs_headers (bduss : string) : list (string * string) :=
  [("Cookie", "BDUSS=" ++ bduss);
   ("User-Agent", mobileUserAgent)]%string.

Definition tbsFailed : JSError := Error [Lit "获取tbs失败"].

Definition getTbs_request (bduss : string) : Async.M (World RNG) JSValue :=
  (response <- axios_get "http://tieba.baidu.com/dc/common/tbs" (getTbs_headers bduss);;
   rejected <- Async.lift
     (orElse (Return (negb (truthy (data response))))
             (andThen (getProp (data response) "tbs")
                      (fun tbs => Return (negb (truthy tbs)))));;
   if rejected : bool then Async.throw tbsFailed
   else
     tbs <- Async.lift (getProp (data response) "tbs");;
     Async.ret tbs)%async.

Definition getTbs (fuel : nat) (bduss : string)
  : World RNG -> option (Outcome (World RNG) JSValue) :=
  withRetry_defaults fuel (getTbs_request bduss) "获取TBS参数".

(** *** signTieba *)

Definition signTieba_headers (bduss : string) : list (string * string) :=
  [("Cookie", "BDUSS=" ++ bduss);
   ("Accept", "application/json, text/javascript, */*; q=0.01");
   ("Accept-Encoding", "gzip,deflate,br");
   ("Accept-Language", "zh-CN,zh;q=0.9,en;q=0.8,en-GB;q=0.7,en-US;q=0.6");
   ("Content-Type", "application/x-www-form-urlencoded; charset=UTF-8");
   ("Connection", "keep-alive");
   ("Host", "tieba.baidu.com");
   ("Referer", "https://tieba.baidu.com/");
   ("x-requested-with", "XMLHttpRequest");
   ("User-Agent", desktopUserAgent)]%string.

Definition emptySignResponse : JSError := Error [Lit "签到响应数据为空"].

Definition signTieba_request (bduss tiebaName tbs : string) (index : Z)
  : Async.M (World RNG) JSValue :=
  (let data_ := [("tbs", tbs); ("kw", tiebaName); ("ie", "utf-8")] in
   response <- axios_post "https://c.tieba.baidu.com/c/c/forum/sign"
                          (toQueryString data_) (signTieba_headers bduss);;
   if negb (truthy (data response)) then Async.throw emptySignResponse
   else Async.ret (data response))%async.

Definition signTieba (fuel : nat) (bduss tiebaName tbs : string) (index : Z)
  : World RNG -> option (Outcome (World RNG) JSValue) :=
  withRetry_defaults fuel (signTieba_request bduss tiebaName tbs index) "签到操作".

End Endpoints.

(** ** Vocabulary of the properties *)

(** [requestFn], called again and again from world [w], throws the errors
    [es] one after the other and leaves world [w']. *)
Fixpoint fails_with {W T} (requestFn : Async.M W T) (w : W) (es : list JSError)
    (w' : W) : Prop :=
  match es with
  | [] => w' = w
  | e :: es => exists w1, requestFn w = (Throw e, w1) /\ fails_with requestFn w1 es w'
  end.

(** The three classes of failure that the retry policy tells apart. *)
Inductive FailureClass : Type := RateLimited | ClientError | Other.

Definition classify (error : JSError) : FailureClass :=
  if isRateLimited error then RateLimited
  else if isClientError error then ClientError
  else Other.

Definition retryable (error : JSError) : bool :=
  match classify error with
  | ClientError => false
  | _ => true
  end.

(** The delays as the specification words them: each one is the previous
    delay times the multiplier, and times 2 once more after a rate-limited
    failure. *)
Definition spec_escalate (M previousDelay : Z) (error : JSError) : Z :=
  match classify error with
  | RateLimited => previousDelay * M * 2
  | _ => previousDelay * M
  end.

Fixpoint spec_delays (M previousDelay : Z) (es : list JSError) : list Z :=
  match es with
  | [] => []
  | e :: es =>
      let delay := spec_escalate M previousDelay e in
      delay :: spec_delays M delay es
  end.

(** [Number.isSafeInteger]: an integer of magnitude below 2^53, on which
    the arithmetic of the code is exact. *)
Definition isSafeInteger (n : Z) : Prop := Z.abs n < 2 ^ 53.

(** The exponents 1, 2, ..., k. *)
Definition upto (k : nat) : list Z := map Z.of_nat (seq 1 k).

(** The reading of "the failure value carries the operation label and the
    number of attempts": both can be read off the value that [withRetry]
    throws, whatever the operation, its label and the retry budget. *)
Definition failure_carries_label_and_attempts : Prop :=
  exists read : JSError -> string * nat,
    forall (requestFn : Async.M nat unit) operationName maxRetries fuel w e w' tr,
      withRetry fuel requestFn operationName maxRetries RETRY_DELAY RETRY_MULTIPLIER w
        = Some (Throw e, w', tr) ->
      read e = (operationName, invocations tr).

(** ** Concrete operations, transports and worlds *)

Definition status500 : JSError :=
  mkError "AxiosError" [Lit "Request failed with status code 500"]
          (Some (mkResponse 500 JNull)).

Definition status429 : JSError :=
  mkError "AxiosError" [Lit "Request failed with status code 429"]
          (Some (mkResponse 429 JNull)).

Definition status404 : JSError :=
  mkError "AxiosError" [Lit "Request failed with status code 404"]
          (Some (mkResponse 404 JNull)).

Definition networkError : JSError :=
  mkError "AxiosError" [Lit "Network Error"] None.

(** An operation whose n-th call throws the n-th error of [script] and
    that succeeds once the script is over; the world counts the calls. *)
Definition scripted (script : list JSError) : Async.M nat unit :=
  fun n =>
    (match nth_error script n with
     | Some e => Throw e
     | None => Return tt
     end, S n).

(** An operation that fails with [e] at every call. *)
Definition alwaysFailing (e : JSError) : Async.M nat unit :=
  fun n => (Throw e, S n).

(** A server that answers every request with the same body. *)
Definition constantTransport (st : Z) (payload : JSValue)
  : list Request -> Request -> AxiosResult :=
  fun _ _ => Resolved (mkResponse st payload).

Definition counterDeviceId (n : nat) : string * nat := ("device"%string, S n).

Definition plainQueryString (fields : list (string * string)) : string :=
  String.concat "&" (map (fun kv => fst kv ++ "=" ++ snd kv)%string fields).

Definition freshWorld : World nat := mkWorld [] [] O.

(** The requests of the four operations. *)
Definition login_req (bduss : string) : Request :=
  mkRequest GET "https://tieba.baidu.com/mo/q/sync" (login_headers bduss) None.

Definition getTiebaList_req (bduss : string) : Request :=
  mkRequest GET "https://tieba.baidu.com/mo/q/newmoindex"
            (getTiebaList_headers bduss) None.

Definition getTbs_req (bduss : string) : Request :=
  mkRequest GET "http://tieba.baidu.com/dc/common/tbs" (getTbs_headers bduss) None.

Definition signTieba_req (toQueryString : list (string * string) -> string)
    (bduss tiebaName tbs : string) : Request :=
  mkRequest POST "https://c.tieba.baidu.com/c/c/forum/sign"
            (signTieba_headers bduss)
            (Some (toQueryString [("tbs", tbs); ("kw", tiebaName); ("ie", "utf-8")]%string)).

(** The response bodies named by the specification. *)
Definition loginSuccessBody : JSValue :=
  JObject [("no", JNumber 0); ("error", JString "success");
           ("data", JObject [("user_id", JString "U1")])]%string.

Definition loginFailBody : JSValue :=
  JObject [("no", JNumber 1); ("error", JString "fail")]%string.

(** "The response body is absent": nothing, [null], or an empty body. *)
Definition body_absent (payload : JSValue) : Prop :=
  payload = JUndefined \/ payload = JNull \/ payload = JString "".

(** "Its tbs field is missing or the empty string". *)
Definition tbs_missing_or_empty (payload : JSValue) : Prop :=
  getProp payload "tbs" = Return JUndefined
  \/ getProp payload "tbs" = Return (JString "").

(** The value of [payload.tbs] where the read does not throw. *)
Definition tbs_of (payload : JSValue) : JSValue :=
  match getProp payload "tbs" with
  | Return v => v
  | Throw _ => JUndefined
  end.

(** Reading a run, continued: the lines written to the error console and
    to the warning console, and the time slept in all. *)
Fixpoint consoleErrors (tr : list Effect) : nat :=
  match tr with
  | [] => O
  | ConsoleError _ :: tr => S (consoleErrors tr)
  | _ :: tr => consoleErrors tr
  end.

Fixpoint consoleWarns (tr : list Effect) : nat :=
  match tr with
  | [] => O
  | ConsoleWarn _ :: tr => S (consoleWarns tr)
  | _ :: tr => consoleWarns tr
  end.

Definition totalSleep (tr : list Effect) : Z := fold_right Z.add 0 (sleeps tr).

(** A server that rejects the first request with [e] and answers every
    later one with the same body. *)
Definition flakyTransport (e : JSError) (st : Z) (payload : JSValue)
  : list Request -> Request -> AxiosResult :=
  fun hist _ =>
    match hist with
    | [] => Rejected e
    | _ :: _ => Resolved (mkResponse st payload)
    end.

(** A server that rejects every request with [e]. *)
Definition rejectingTransport (e : JSError)
  : list Request -> Request -> AxiosResult :=
  fun _ _ => Rejected e.


(** Case analysis of the code of an attempt, in the goal. *)
Ltac attempt_cases :=
  repeat match goal with
         | |- context [match ?x with _ => _ end] =>
             lazymatch x with
             | context [match _ with _ => _ end] => fail
             | _ => destruct x eqn:?; simpl
             end
         end;
  try reflexivity.

(** Case analysis of an attempt that ended in a throw. *)
Ltac throw_cases :=
  repeat match goal with
         | H : (Throw _, _) = (Throw _, _) |- _ => inversion H; subst; clear H
         | H : (Return _, _) = (Throw _, _) |- _ => discriminate H
         | H : Throw _ = Throw _ |- _ => inversion H; subst; clear H
         | H : Return _ = Throw _ |- _ => discriminate H
         | H : context [match ?x with _ => _ end] |- _ =>
             destruct x eqn:?; simpl in H
         end.

(** * Properties of withRetry *)

Lemma invocations_app (a b : list Effect) :
  invocations (a ++ b) = (invocations a + invocations b)%nat.
Proof.
  induction a as [|x a IH]; simpl; [reflexivity|].
  destruct x; simpl; rewrite IH; reflexivity.
Qed.

Lemma sleeps_app (a b : list Effect) :
  sleeps (a ++ b) = (sleeps a ++ sleeps b)%list.
Proof.
  induction a as [|x a IH]; simpl; [reflexivity|].
  destruct x; simpl; rewrite IH; reflexivity.
Qed.

Lemma after_after {W T} (p q : list Effect) (r : option (Outcome W T)) :
  after p (after q r) = after (p ++ q) r.
Proof.
  destruct r as [[[c w] tr]|]; simpl; [|reflexivity].
  rewrite app_assoc. reflexivity.
Qed.

Lemma after_nil {W T} (r : option (Outcome W T)) : after [] r = r.
Proof. destruct r as [[[c w] tr]|]; reflexivity. Qed.

Lemma after_Some {W T} (p : list Effect) (r : option (Outcome W T)) c w tr :
  after p r = Some (c, w, tr) ->
  exists tr', r = Some (c, w, tr') /\ tr = (p ++ tr')%list.
Proof.
  destruct r as [[[c0 w0] tr0]|]; simpl; intros H; inversion H; subst.
  eexists; split; reflexivity.
Qed.

(** The classes against the two tests of the code. *)
Lemma classify_RateLimited e : isRateLimited e = true -> classify e = RateLimited.
Proof. unfold classify. intros ->. reflexivity. Qed.


Lemma classify_ClientError e :
  isRateLimited e = false -> isClientError e = true -> classify e = ClientError.
Proof. unfold classify. intros -> ->. reflexivity. Qed.

Lemma retryable_tests e :
  retryable e = negb (negb (isRateLimited e) && isClientError e).
Proof.
  unfold retryable, classify.
  destruct (isRateLimited e), (isClientError e); reflexivity.
Qed.


Section WithRetryFacts.

Context {W T : Type}.
Variable requestFn : Async.M W T.
Variable operationName : string.
Variables maxRetries delayMultiplier : Z.

Local Notation "'loop'" :=
  (withRetry_loop requestFn operationName maxRetries delayMultiplier).

(** One turn of the loop, case by case. *)
Lemma loop_success fuel retries delay w v w1 :
  requestFn w = (Return v, w1) ->
  loop (S fuel) retries delay w = Some (Return v, w1, [Invoke]).
Proof. intros H. simpl. rewrite H. reflexivity. Qed.

Lemma loop_exhausted fuel retries delay w e w1 :
  requestFn w = (Throw e, w1) ->
  maxRetries < retries + 1 ->
  loop (S fuel) retries delay w
  = Some (Throw e, w1,
          [Invoke; ConsoleError (errorLine operationName (retries + 1) e)]).
Proof.
  intros H Hlt. simpl. rewrite H.
  replace (retries + 1 >? maxRetries) with true by (symmetry; rewrite Z.gtb_ltb; apply Z.ltb_lt; lia).
  reflexivity.
Qed.

Lemma loop_client_error fuel retries delay w e w1 :
  requestFn w = (Throw e, w1) ->
  classify e = ClientError ->
  loop (S fuel) retries delay w
  = Some (Throw e, w1,
          [Invoke; ConsoleError (errorLine operationName (retries + 1) e)]).
Proof.
  intros H Hc. simpl. rewrite H. unfold classify in Hc.
  destruct (isRateLimited e); [discriminate|].
  destruct (isClientError e); [|discriminate].
  rewrite orb_true_r. reflexivity.
Qed.

Lemma loop_retry fuel retries delay w e w1 :
  requestFn w = (Throw e, w1) ->
  retryable e = true ->
  retries + 1 <= maxRetries ->
  loop (S fuel) retries delay w
  = after [Invoke;
           ConsoleWarn (if isRateLimited e
                        then rateLimitLine (spec_escalate delayMultiplier delay e)
                                           (retries + 1) maxRetries
                        else retryLine operationName
                                       (spec_escalate delayMultiplier delay e)
                                       (retries + 1) maxRetries);
           Sleep (spec_escalate delayMultiplier delay e)]
          (loop fuel (retries + 1) (spec_escalate delayMultiplier delay e) w1).
Proof.
  intros H Hr Hle. simpl. rewrite H.
  replace (retries + 1 >? maxRetries) with false
    by (symmetry; rewrite Z.gtb_ltb; apply Z.ltb_ge; lia).
  rewrite retryable_tests in Hr. apply negb_true_iff in Hr. rewrite Hr. simpl.
  unfold spec_escalate, classify.
  destruct (isRateLimited e); [reflexivity|].
  destruct (isClientError e); [discriminate|reflexivity].
Qed.

(** Enough fuel: the loop ends within [maxRetries - retries + 1] turns. *)
Lemma withRetry_loop_terminates fuel retries delay w :
  (Z.to_nat (maxRetries - retries) < fuel)%nat ->
  exists out, loop fuel retries delay w = Some out.
Proof.
  revert retries delay w.
  induction fuel as [|fuel IH]; intros retries delay w Hf; [lia|].
  destruct (requestFn w) as [[v|e] w1] eqn:Hreq.
  - eexists. apply loop_success. exact Hreq.
  - destruct (Z_lt_le_dec maxRetries (retries + 1)) as [Hlt|Hle].
    + eexists. apply loop_exhausted; eassumption.
    + destruct (retryable e) eqn:Hr.
      * rewrite (loop_retry _ _ _ _ _ _ Hreq Hr Hle).
        destruct (IH (retries + 1) (spec_escalate delayMultiplier delay e) w1)
          as [[[c w2] tr] Hout]; [lia|].
        rewrite Hout. simpl. eexists. reflexivity.
      * eexists. apply loop_client_error; [exact Hreq|].
        unfold retryable in Hr. destruct (classify e); try discriminate.
        reflexivity.
Qed.

(** More fuel does not change a result. *)
Lemma withRetry_loop_more_fuel fuel extra retries delay w out :
  loop fuel retries delay w = Some out ->
  loop (fuel + extra) retries delay w = Some out.
Proof.
  revert retries delay w out.
  induction fuel as [|fuel IH]; intros retries delay w out H; [discriminate|].
  simpl in *. destruct (requestFn w) as [[v|e] w1]; [exact H|].
  destruct ((retries + 1 >? maxRetries) || (negb (isRateLimited e) && isClientError e));
    [exact H|].
  destruct (isRateLimited e).
  - destruct (loop fuel _ _ w1) as [[[c w2] tr]|] eqn:E; [|discriminate].
    rewrite (IH _ _ _ _ E). exact H.
  - destruct (loop fuel _ _ w1) as [[[c w2] tr]|] eqn:E; [|discriminate].
    rewrite (IH _ _ _ _ E). exact H.
Qed.

(** A run of retryable failures within the budget: one call and one sleep
    for each, with the delays of [spec_delays]. *)
Lemma loop_failures es : forall fuel retries delay w w1,
  fails_with requestFn w es w1 ->
  forallb retryable es = true ->
  retries + Z.of_nat (List.length es) <= maxRetries ->
  exists pre,
    loop (List.length es + fuel) retries delay w
    = after pre (loop fuel (retries + Z.of_nat (List.length es))
                      (fold_left (spec_escalate delayMultiplier) es delay) w1)
    /\ invocations pre = List.length es
    /\ sleeps pre = spec_delays delayMultiplier delay es.
Proof.
  induction es as [|e es IH]; intros fuel retries delay w w1 Hf Hr Hle.
  - simpl in Hf. subst w1. exists []. simpl.
    rewrite after_nil, Z.add_0_r. repeat split; reflexivity.
  - destruct Hf as [w2 [Hreq Hf]].
    simpl in Hr. apply andb_true_iff in Hr. destruct Hr as [Hre Hr].
    cbn [List.length] in *. rewrite Nat2Z.inj_succ in *.
    destruct (IH fuel (retries + 1) (spec_escalate delayMultiplier delay e) w2 w1 Hf Hr)
      as [pre [Hloop [Hinv Hsl]]]; [lia|].
    eexists. split; [|split].
    + cbn [Nat.add]. rewrite (loop_retry _ _ _ _ _ _ Hreq Hre) by lia.
      rewrite Hloop, after_after.
      replace (retries + 1 + Z.of_nat (List.length es))
        with (retries + Z.succ (Z.of_nat (List.length es))) by lia.
      reflexivity.
    + simpl. rewrite Hinv. reflexivity.
    + simpl. rewrite Hsl. reflexivity.
Qed.

(** What is thrown is what the last call threw, and the line written to
    the error console names the operation and counts the calls. *)
Lemma loop_throw fuel : forall retries delay w e w' tr,
  loop fuel retries delay w = Some (Throw e, w', tr) ->
  (exists w0, requestFn w0 = (Throw e, w'))
  /\ exists pre,
       tr = (pre ++ [ConsoleError
                       (errorLine operationName
                                  (retries + Z.of_nat (invocations tr)) e)])%list
       /\ sleeps pre = sleeps tr.
Proof.
  induction fuel as [|fuel IH]; intros retries delay w e w' tr H; [discriminate|].
  simpl in H. destruct (requestFn w) as [[v|e0] w1] eqn:Hreq; [discriminate|].
  destruct ((retries + 1 >? maxRetries) || (negb (isRateLimited e0) && isClientError e0)).
  - inversion H; subst. split; [exists w; exact Hreq|].
    exists [Invoke]. split; reflexivity.
  - destruct (isRateLimited e0);
      apply after_Some in H; destruct H as [tr' [H ->]];
      destruct (IH _ _ _ _ _ _ H) as [Hlast [pre [Htr Hsl]]];
      (split; [exact Hlast|]);
      match goal with |- context [(?p ++ tr')%list] => exists (p ++ pre)%list end;
      (split; [|rewrite !sleeps_app, Hsl; reflexivity]);
      match goal with |- context [retries + ?n] =>
        replace (retries + n) with (retries + 1 + Z.of_nat (invocations tr'))
          by (rewrite invocations_app; simpl; lia)
      end;
      rewrite <- app_assoc, <- Htr; reflexivity.
Qed.

End WithRetryFacts.

(** An operation that fails at every call fails as often as one asks. *)
Lemma always_failing_prefix {W T} (requestFn : Async.M W T) (P : JSError -> bool) :
  (forall w, exists e w', requestFn w = (Throw e, w') /\ P e = true) ->
  forall n w, exists es w1,
    fails_with requestFn w es w1 /\ List.length es = n /\ forallb P es = true.
Proof.
  intros Hall n. induction n as [|n IH]; intros w.
  - exists [], w. repeat split.
  - destruct (Hall w) as [e [w' [Hreq HP]]].
    destruct (IH w') as [es [w1 [Hf [Hlen HPs]]]].
    exists (e :: es), w1. split; [|split].
    + exists w'. split; assumption.
    + simpl. rewrite Hlen. reflexivity.
    + simpl. rewrite HP, HPs. reflexivity.
Qed.

(** The closed form of the delays of a run of failures of one class. *)
Lemma spec_delays_rate_limited M d es : forall a : nat,
  forallb isRateLimited es = true ->
  spec_delays M (d * (2 * M) ^ Z.of_nat a) es
  = map (fun i => d * (2 * M) ^ i) (map Z.of_nat (seq (S a) (List.length es))).
Proof.
  induction es as [|e es IH]; intros a Hall; [reflexivity|].
  simpl in Hall. apply andb_true_iff in Hall. destruct Hall as [He Hall].
  cbn [spec_delays List.length seq map].
  assert (Hd : spec_escalate M (d * (2 * M) ^ Z.of_nat a) e
               = d * (2 * M) ^ Z.of_nat (S a)).
  { unfold spec_escalate. rewrite (classify_RateLimited _ He).
    rewrite Nat2Z.inj_succ, Z.pow_succ_r by lia. ring. }
  rewrite Hd. f_equal. apply IH. exact Hall.
Qed.

Lemma spec_delays_generic M d es : forall a : nat,
  forallb (fun e => negb (isRateLimited e)) es = true ->
  spec_delays M (d * M ^ Z.of_nat a) es
  = map (fun i => d * M ^ i) (map Z.of_nat (seq (S a) (List.length es))).
Proof.
  induction es as [|e es IH]; intros a Hall; [reflexivity|].
  simpl in Hall. apply andb_true_iff in Hall. destruct Hall as [He Hall].
  apply negb_true_iff in He.
  cbn [spec_delays List.length seq map].
  assert (Hd : spec_escalate M (d * M ^ Z.of_nat a) e = d * M ^ Z.of_nat (S a)).
  { unfold spec_escalate, classify. rewrite He.
    rewrite Nat2Z.inj_succ, Z.pow_succ_r by lia.
    destruct (isClientError e); ring. }
  rewrite Hd. f_equal. apply IH. exact Hall.
Qed.

(** C1. For every maxRetries = N >= 0, an operation that fails at every
    call with a failure that is neither rate-limited nor a 4xx client error
    is called exactly N + 1 times by [withRetry]: N failures are each
    followed by a sleep, and the failure of call N + 1 is thrown. *)
Theorem withRetry_always_failing_attempts {W T} (requestFn : Async.M W T)
    (operationName : string) (N initialDelay delayMultiplier : Z)
    (fuel : nat) (w : W) :
  0 <= N ->
  (forall w, exists e w',
      requestFn w = (Throw e, w')
      /\ negb (isRateLimited e) && negb (isClientError e) = true) ->
  (Z.to_nat N < fuel)%nat ->
  exists es w_last e w' tr,
    withRetry fuel requestFn operationName N initialDelay delayMultiplier w
      = Some (Throw e, w', tr)
    /\ fails_with requestFn w es w_last
    /\ Z.of_nat (List.length es) = N
    /\ requestFn w_last = (Throw e, w')
    /\ Z.of_nat (invocations tr) = N + 1
    /\ Z.of_nat (List.length (sleeps tr)) = N.
Proof.
  intros HN Hall Hfuel.
  destruct (always_failing_prefix requestFn _ Hall (Z.to_nat N) w)
    as [es [w1 [Hf [Hlen Hcls]]]].
  assert (Hretry : forallb retryable es = true).
  { rewrite forallb_forall in Hcls |- *. intros e He.
    specialize (Hcls e He). apply andb_true_iff in Hcls. destruct Hcls as [H1 H2].
    rewrite retryable_tests. apply negb_true_iff in H2. rewrite H2.
    rewrite andb_false_r. reflexivity. }
  destruct (Hall w1) as [e [w' [Hreq _]]].
  assert (HlenZ : Z.of_nat (List.length es) = N) by lia.
  destruct (loop_failures requestFn operationName N delayMultiplier es
              (fuel - List.length es) 0 initialDelay w w1 Hf Hretry)
    as [pre [Hloop [Hinv Hsl]]]; [lia|].
  replace (List.length es + (fuel - List.length es))%nat with fuel in Hloop by lia.
  destruct (fuel - List.length es)%nat as [|rest] eqn:Hrest; [lia|].
  rewrite (loop_exhausted _ _ _ _ _ _ _ _ _ _ Hreq) in Hloop by lia.
  exists es, w1, e, w'. eexists. unfold withRetry.
  split; [exact Hloop|]. split; [exact Hf|]. split; [exact HlenZ|].
  split; [exact Hreq|]. split.
  - rewrite invocations_app, Hinv. simpl. lia.
  - rewrite sleeps_app, Hsl, length_app. simpl.
    assert (Hl : forall M d, List.length (spec_delays M d es) = List.length es).
    { clear. induction es; intros; simpl; [reflexivity|]. rewrite IHes. reflexivity. }
    rewrite Hl. lia.
Qed.

Lemma withRetry_always_failing_attempts_witness :
  exists es w_last e w' tr,
    withRetry 3 (alwaysFailing status500) "op" 2 RETRY_DELAY RETRY_MULTIPLIER O
      = Some (Throw e, w', tr)
    /\ fails_with (alwaysFailing status500) O es w_last
    /\ Z.of_nat (List.length es) = 2
    /\ alwaysFailing status500 w_last = (Throw e, w')
    /\ Z.of_nat (invocations tr) = 2 + 1
    /\ Z.of_nat (List.length (sleeps tr)) = 2.
Proof.
  apply (withRetry_always_failing_attempts (alwaysFailing status500)).
  - discriminate.
  - intros w. exists status500, (S w). split; reflexivity.
  - apply le_n.
Defined.

(** C2. For an initial delay D and a multiplier M that are safe integers,
    and as long as the delays stay safe integers: the delay slept after a
    retryable failure is the previous delay escalated first, times M and
    times 2 after a rate-limited failure, times M after any other one
    ([spec_delays]). A run of k rate-limited failures from the initial delay
    D sleeps D(2M), D(2M)^2, ..., D(2M)^k, a run of k other retryable
    failures D M, D M^2, ..., D M^k. *)
Theorem withRetry_delay_sequence {W T} (requestFn : Async.M W T)
    (operationName : string) (N D M : Z) (fuel : nat) (w w1 : W)
    (es : list JSError) :
  isSafeInteger D ->
  isSafeInteger M ->
  Forall isSafeInteger (spec_delays M D es) ->
  fails_with requestFn w es w1 ->
  forallb retryable es = true ->
  Z.of_nat (List.length es) <= N ->
  (Z.to_nat N < fuel)%nat ->
  exists c w' tr rest,
    withRetry fuel requestFn operationName N D M w = Some (c, w', tr)
    /\ sleeps tr = (spec_delays M D es ++ rest)%list
    /\ (forallb isRateLimited es = true ->
        sleeps tr
        = (map (fun i => D * (2 * M) ^ i) (upto (List.length es)) ++ rest)%list)
    /\ (forallb (fun e => negb (isRateLimited e)) es = true ->
        sleeps tr
        = (map (fun i => D * M ^ i) (upto (List.length es)) ++ rest)%list).
Proof.
  intros HD HM Hsafe Hf Hretry Hlen Hfuel.
  destruct (loop_failures requestFn operationName N M es
              (fuel - List.length es) 0 D w w1 Hf Hretry)
    as [pre [Hloop [Hinv Hsl]]]; [lia|].
  replace (List.length es + (fuel - List.length es))%nat with fuel in Hloop by lia.
  destruct (withRetry_loop_terminates requestFn operationName N M
              (fuel - List.length es) (0 + Z.of_nat (List.length es))
              (fold_left (spec_escalate M) es D) w1)
    as [[[c w'] tr'] Hout]; [lia|].
  rewrite Hout in Hloop. simpl in Hloop.
  exists c, w', (pre ++ tr')%list, (sleeps tr').
  assert (Hs : sleeps (pre ++ tr') = (spec_delays M D es ++ sleeps tr')%list)
    by (rewrite sleeps_app, Hsl; reflexivity).
  split; [exact Hloop|]. split; [exact Hs|]. split; intros Hall; rewrite Hs; f_equal.
  - replace D with (D * (2 * M) ^ Z.of_nat 0) at 1 by (simpl; ring).
    apply spec_delays_rate_limited. exact Hall.
  - replace D with (D * M ^ Z.of_nat 0) at 1 by (simpl; ring).
    apply spec_delays_generic. exact Hall.
Qed.

Lemma withRetry_delay_sequence_witness :
  (isSafeInteger 3000 /\ isSafeInteger 2
   /\ Forall isSafeInteger (spec_delays 2 3000 [status429; status429])
   /\ exists c w' tr rest,
     withRetry 4 (scripted [status429; status429]) "op" 3 3000 2 O = Some (c, w', tr)
     /\ sleeps tr = (spec_delays 2 3000 [status429; status429] ++ rest)%list
     /\ sleeps tr = (map (fun i => 3000 * (2 * 2) ^ i) (upto 2) ++ rest)%list)
  /\ (isSafeInteger 3000 /\ isSafeInteger 2
   /\ Forall isSafeInteger (spec_delays 2 3000 [status500; networkError])
   /\ exists c w' tr rest,
     withRetry 4 (scripted [status500; networkError]) "op" 3 3000 2 O = Some (c, w', tr)
     /\ sleeps tr = (spec_delays 2 3000 [status500; networkError] ++ rest)%list
     /\ sleeps tr = (map (fun i => 3000 * 2 ^ i) (upto 2) ++ rest)%list).
Proof.
  assert (HD : isSafeInteger 3000) by reflexivity.
  assert (HM : isSafeInteger 2) by reflexivity.
  assert (H429 : Forall isSafeInteger (spec_delays 2 3000 [status429; status429]))
    by (repeat constructor).
  assert (H500 : Forall isSafeInteger (spec_delays 2 3000 [status500; networkError]))
    by (repeat constructor).
  split; (split; [exact HD|]); (split; [exact HM|]).
  - split; [exact H429|].
    destruct (withRetry_delay_sequence (scripted [status429; status429]) "op"
                3 3000 2 4 O 2%nat [status429; status429] HD HM H429)
      as [c [w' [tr [rest [Hrun [Hs [Hrate _]]]]]]].
    + exists 1%nat. split; [reflexivity|]. exists 2%nat. split; reflexivity.
    + reflexivity.
    + discriminate.
    + apply le_n.
    + exists c, w', tr, rest. split; [exact Hrun|]. split; [exact Hs|].
      apply Hrate. reflexivity.
  - split; [exact H500|].
    destruct (withRetry_delay_sequence (scripted [status500; networkError]) "op"
                3 3000 2 4 O 2%nat [status500; networkError] HD HM H500)
      as [c [w' [tr [rest [Hrun [Hs [_ Hother]]]]]]].
    + exists 1%nat. split; [reflexivity|]. exists 2%nat. split; reflexivity.
    + reflexivity.
    + discriminate.
    + apply le_n.
    + exists c, w', tr, rest. split; [exact Hrun|]. split; [exact Hs|].
      apply Hother. reflexivity.
Defined.

(** C3. Whatever maxRetries is, a first call that fails with a status in
    [400, 500) other than 429 ends [withRetry] at once: one call, no sleep,
    and that failure thrown. *)
Theorem withRetry_client_error_fails_fast {W T} (requestFn : Async.M W T)
    (operationName : string) (maxRetries initialDelay delayMultiplier : Z)
    (fuel : nat) (w w' : W) (e : JSError) (r : AxiosResponse) :
  requestFn w = (Throw e, w') ->
  response e = Some r ->
  400 <= status r < 500 ->
  status r <> 429 ->
  exists tr,
    withRetry (S fuel) requestFn operationName maxRetries initialDelay
              delayMultiplier w
      = Some (Throw e, w', tr)
    /\ invocations tr = 1%nat
    /\ sleeps tr = []
    /\ tr = [Invoke; ConsoleError (errorLine operationName 1 e)].
Proof.
  intros Hreq Hresp Hrange Hne.
  eexists. split.
  - unfold withRetry. apply loop_client_error; [exact Hreq|].
    apply classify_ClientError; unfold isRateLimited, isClientError; rewrite Hresp.
    + apply Z.eqb_neq. exact Hne.
    + apply andb_true_iff. split; [apply Z.geb_le|apply Z.ltb_lt]; lia.
  - repeat split.
Qed.

Lemma withRetry_client_error_fails_fast_witness :
  exists tr,
    withRetry 1 (alwaysFailing status404) "op" 10 RETRY_DELAY RETRY_MULTIPLIER O
      = Some (Throw status404, 1%nat, tr)
    /\ invocations tr = 1%nat
    /\ sleeps tr = []
    /\ tr = [Invoke; ConsoleError (errorLine "op" 1 status404)].
Proof.
  apply (withRetry_client_error_fails_fast (alwaysFailing status404) "op" 10
           RETRY_DELAY RETRY_MULTIPLIER 0 O 1%nat status404 (mkResponse 404 JNull)).
  - reflexivity.
  - reflexivity.
  - split; [discriminate|reflexivity].
  - discriminate.
Defined.

(** C4, as stated, does not hold: the value thrown by [withRetry] is the
    error of the operation itself, the same whatever the label and however
    many calls were made. *)
Lemma failure_value_carries_no_label : ~ failure_carries_label_and_attempts.
Proof.
  intros [read Hread].
  pose proof (Hread (alwaysFailing networkError) "A"%string 0 1%nat O
                    networkError 1%nat _ eq_refl) as HA.
  pose proof (Hread (alwaysFailing networkError) "B"%string 0 1%nat O
                    networkError 1%nat _ eq_refl) as HB.
  rewrite HA in HB. discriminate HB.
Qed.

(** C4, amended. When [withRetry] throws, the value thrown is the error of
    the last call of the operation, unchanged; the operation label and the
    number of calls made are in the line written to the error console just
    before, the last effect of the run. *)
Theorem withRetry_failure_is_last_error {W T} (requestFn : Async.M W T)
    (operationName : string) (maxRetries initialDelay delayMultiplier : Z)
    (fuel : nat) (w w' : W) (e : JSError) (tr : list Effect) :
  withRetry fuel requestFn operationName maxRetries initialDelay delayMultiplier w
    = Some (Throw e, w', tr) ->
  (exists w0, requestFn w0 = (Throw e, w'))
  /\ exists pre line,
       tr = (pre ++ [ConsoleError line])%list
       /\ line = errorLine operationName (Z.of_nat (invocations tr)) e
       /\ In (Lit operationName) line
       /\ In (Num (Z.of_nat (invocations tr))) line.
Proof.
  unfold withRetry. intros H.
  destruct (loop_throw _ _ _ _ _ _ _ _ _ _ _ H) as [Hlast [pre [Htr _]]].
  split; [exact Hlast|].
  exists pre, (errorLine operationName (Z.of_nat (invocations tr)) e).
  split; [exact Htr|]. split; [reflexivity|].
  split; unfold errorLine; simpl; auto 6.
Qed.

Lemma withRetry_failure_is_last_error_witness :
  (exists w0, alwaysFailing status500 w0 = (Throw status500, 2%nat))
  /\ exists pre line,
       [Invoke; ConsoleWarn (retryLine "op" 6000 1 1); Sleep 6000;
        Invoke; ConsoleError (errorLine "op" 2 status500)]
       = (pre ++ [ConsoleError line])%list
       /\ line = errorLine "op" 2 status500
       /\ In (Lit "op") line
       /\ In (Num 2) line.
Proof.
  apply (withRetry_failure_is_last_error (alwaysFailing status500) "op"
           1 RETRY_DELAY RETRY_MULTIPLIER 2 O 2%nat status500).
  reflexivity.
Defined.

(** * Properties of the endpoint calls *)

(** With the default policy, an operation that throws the same failure of
    class [Other] at every call is called four times, with sleeps of 6, 12
    and 24 seconds in between, and that failure is thrown. *)
Lemma withRetry_defaults_always_throws {W T} (requestFn : Async.M W T)
    (operationName : string) (e : JSError) (next : W -> W) :
  (forall w, requestFn w = (Throw e, next w)) ->
  classify e = Other ->
  forall fuel w, (4 <= fuel)%nat ->
  exists tr,
    withRetry_defaults fuel requestFn operationName w
      = Some (Throw e, next (next (next (next w))), tr)
    /\ invocations tr = 4%nat
    /\ sleeps tr = [6000; 12000; 24000].
Proof.
  intros Hreq Hcls fuel w Hfuel.
  assert (Hr : retryable e = true) by (unfold retryable; rewrite Hcls; reflexivity).
  assert (Hesc : forall d, spec_escalate RETRY_MULTIPLIER d e = d * 2)
    by (intros d; unfold spec_escalate; rewrite Hcls; reflexivity).
  destruct (loop_failures requestFn operationName MAX_RETRIES RETRY_MULTIPLIER
              [e; e; e] (fuel - 3) 0 RETRY_DELAY w (next (next (next w))))
    as [pre [Hloop [Hinv Hsl]]].
  - repeat (eexists; split; [apply Hreq|]). reflexivity.
  - simpl. rewrite Hr. reflexivity.
  - discriminate.
  - replace (List.length [e; e; e] + (fuel - 3))%nat with fuel in Hloop
      by (simpl; lia).
    destruct (fuel - 3)%nat as [|rest] eqn:Hrest; [lia|].
    rewrite (loop_exhausted _ _ _ _ _ _ _ _ _ _ (Hreq _)) in Hloop
      by (simpl; unfold MAX_RETRIES; lia).
    eexists. split; [exact Hloop|]. split.
    + rewrite invocations_app, Hinv. reflexivity.
    + rewrite sleeps_app, Hsl. simpl. rewrite !Hesc. reflexivity.
Qed.

(** An operation whose first call succeeds is called once. *)
Lemma withRetry_defaults_first_success {W T} (requestFn : Async.M W T)
    (operationName : string) (v : T) (w w' : W) (fuel : nat) :
  requestFn w = (Return v, w') ->
  (1 <= fuel)%nat ->
  withRetry_defaults fuel requestFn operationName w = Some (Return v, w', [Invoke]).
Proof.
  intros Hreq Hfuel. destruct fuel as [|fuel]; [lia|].
  apply loop_success. exact Hreq.
Qed.

Section EndpointFacts.

Context {RNG : Type}.
Variable transport : list Request -> Request -> AxiosResult.
Variable generateDeviceId : RNG -> string * RNG.
Variable toQueryString : list (string * string) -> string.

(** One attempt of each operation, by the body of the response. *)
Lemma login_request_success bduss (w : World RNG) st :
  transport (sent w) (login_req bduss) = Resolved (mkResponse st loginSuccessBody) ->
  exists w',
    login_request transport generateDeviceId bduss w
    = (Return (mkUserInfo 200 bduss (JString "U1") true
                          (fst (generateDeviceId (rng w)))), w').
Proof.
  intros H. unfold login_request, Async.bind, axios_get, axios.
  fold (login_req bduss). rewrite H. unfold callGenerateDeviceId. simpl.
  destruct (generateDeviceId (rng w)) as [id g]. simpl. eexists. reflexivity.
Qed.

Lemma login_request_fail bduss (w : World RNG) st :
  transport (sent w) (login_req bduss) = Resolved (mkResponse st loginFailBody) ->
  login_request transport generateDeviceId bduss w
  = (Throw invalidBduss, afterRequest w (login_req bduss)).
Proof.
  intros H. unfold login_request, Async.bind, axios_get, axios.
  fold (login_req bduss). rewrite H. reflexivity.
Qed.

Lemma getTiebaList_request_no_data bduss (w : World RNG) st payload :
  transport (sent w) (getTiebaList_req bduss) = Resolved (mkResponse st payload) ->
  getProp payload "error" = Return (JString "success") ->
  getProp payload "data" = Return JUndefined ->
  getTiebaList_request transport bduss w
  = (Throw (TypeError JUndefined "like_forum"),
     afterRequest w (getTiebaList_req bduss)).
Proof.
  intros H He Hd. unfold getTiebaList_request, Async.bind, axios_get, axios.
  fold (getTiebaList_req bduss). rewrite H.
  destruct payload; try discriminate He.
  cbn [data truthy negb orElse andThen Async.lift]. rewrite He, Hd. reflexivity.
Qed.

Lemma getTiebaList_request_no_like_forum bduss (w : World RNG) st payload inner v :
  transport (sent w) (getTiebaList_req bduss) = Resolved (mkResponse st payload) ->
  getProp payload "error" = Return (JString "success") ->
  getProp payload "data" = Return inner ->
  getProp inner "like_forum" = Return v ->
  truthy v = false ->
  exists w',
    getTiebaList_request transport bduss w = (Return (JArray []), w').
Proof.
  intros H He Hd Hl Hv. unfold getTiebaList_request, Async.bind, axios_get, axios.
  fold (getTiebaList_req bduss). rewrite H.
  destruct payload; try discriminate He.
  cbn [data truthy negb orElse andThen Async.lift]. rewrite He, Hd. simpl.
  rewrite Hl. unfold js_or. rewrite Hv. eexists. reflexivity.
Qed.

Lemma getTbs_request_resolved bduss (w : World RNG) st payload :
  transport (sent w) (getTbs_req bduss) = Resolved (mkResponse st payload) ->
  getTbs_request transport bduss w
  = (if negb (truthy payload) || negb (truthy (tbs_of payload))
     then Throw tbsFailed
     else Return (tbs_of payload),
     afterRequest w (getTbs_req bduss)).
Proof.
  intros H. unfold getTbs_request, Async.bind, axios_get, axios.
  fold (getTbs_req bduss). rewrite H. unfold tbs_of.
  destruct payload as [| |b|n|s|items|fields]; simpl; try reflexivity.
  - destruct b; reflexivity.
  - destruct (n =? 0); reflexivity.
  - destruct (s =? "")%string; reflexivity.
  - destruct (truthy (lookup "tbs" fields)); reflexivity.
Qed.

Lemma signTieba_request_resolved bduss tiebaName tbs index (w : World RNG) st payload :
  transport (sent w) (signTieba_req toQueryString bduss tiebaName tbs)
    = Resolved (mkResponse st payload) ->
  signTieba_request transport toQueryString bduss tiebaName tbs index w
  = (if truthy payload then Return payload else Throw emptySignResponse,
     afterRequest w (signTieba_req toQueryString bduss tiebaName tbs)).
Proof.
  intros H. unfold signTieba_request, Async.bind, axios_post, axios.
  fold (signTieba_req toQueryString bduss tiebaName tbs). rewrite H.
  simpl. destruct (truthy payload); reflexivity.
Qed.

End EndpointFacts.



Section ValidationErrors.

Context {RNG : Type}.
Variable transport : list Request -> Request -> AxiosResult.
Variable generateDeviceId : RNG -> string * RNG.
Variable toQueryString : list (string * string) -> string.
Variables (w w' : World RNG) (r : AxiosResponse) (e : JSError).





End ValidationErrors.



(** C6. For every credential: when the server answers
    {no: 0, error: "success", data: {user_id: "U1"}}, [login] returns, after
    one call, a UserInfo with userId "U1", isValid true and the device
    identifier of [generateDeviceId], which is non-empty; when the server
    answers {no: 1, error: "fail"} to every request, [login] throws the
    invalid-or-expired-BDUSS error after the four attempts of the default
    retry policy. *)
Theorem login_examples {RNG} (transport : list Request -> Request -> AxiosResult)
    (generateDeviceId : RNG -> string * RNG) (bduss : string) (w : World RNG)
    (st : Z) (fuel : nat) :
  DeviceIdentityHelper generateDeviceId ->
  (transport (sent w) (login_req bduss) = Resolved (mkResponse st loginSuccessBody) ->
   (1 <= fuel)%nat ->
   exists info w',
     login transport generateDeviceId fuel bduss w = Some (Return info, w', [Invoke])
     /\ userId info = JString "U1"
     /\ isValid info = true
     /\ deviceId info <> ""%string
     /\ ui_bduss info = bduss)
  /\ ((forall hist,
          transport hist (login_req bduss) = Resolved (mkResponse st loginFailBody)) ->
      (4 <= fuel)%nat ->
      exists w' tr,
        login transport generateDeviceId fuel bduss w
          = Some (Throw invalidBduss, w', tr)
        /\ invocations tr = 4%nat
        /\ Z.of_nat (invocations tr) <= MAX_RETRIES + 1
        /\ sent w' = (sent w ++ repeat (login_req bduss) 4)%list).
Proof.
  intros Hdev. split.
  - intros Ht Hfuel.
    destruct (login_request_success transport generateDeviceId bduss w st Ht)
      as [w' Hreq].
    eexists. exists w'. split.
    + apply withRetry_defaults_first_success; [exact Hreq|exact Hfuel].
    + simpl. repeat split. apply Hdev.
  - intros Ht Hfuel.
    destruct (withRetry_defaults_always_throws
                (login_request transport generateDeviceId bduss) "验证BDUSS"
                invalidBduss (fun w => afterRequest w (login_req bduss)))
      with (fuel := fuel) (w := w) as [tr [Hrun [Hinv Hsl]]].
    + intros w0. apply (login_request_fail _ _ _ _ st). apply Ht.
    + reflexivity.
    + exact Hfuel.
    + eexists. exists tr. split; [exact Hrun|]. split; [exact Hinv|].
      split; [rewrite Hinv; discriminate|].
      simpl. rewrite <- !app_assoc. reflexivity.
Qed.

Lemma login_examples_witness :
  (exists info w',
     login (constantTransport 200 loginSuccessBody) counterDeviceId 4 "BDUSS" freshWorld
       = Some (Return info, w', [Invoke])
     /\ userId info = JString "U1"
     /\ isValid info = true
     /\ deviceId info <> ""%string
     /\ ui_bduss info = "BDUSS"%string)
  /\ (exists w' tr,
     login (constantTransport 200 loginFailBody) counterDeviceId 4 "BDUSS" freshWorld
       = Some (Throw invalidBduss, w', tr)
     /\ invocations tr = 4%nat
     /\ Z.of_nat (invocations tr) <= MAX_RETRIES + 1
     /\ sent w' = (sent freshWorld ++ repeat (login_req "BDUSS") 4)%list).
Proof.
  assert (Hdev : DeviceIdentityHelper counterDeviceId)
    by (intros g; discriminate).
  split.
  - apply (login_examples (constantTransport 200 loginSuccessBody) counterDeviceId
             "BDUSS" freshWorld 200 4 Hdev).
    + reflexivity.
    + repeat constructor.
  - apply (login_examples (constantTransport 200 loginFailBody) counterDeviceId
             "BDUSS" freshWorld 200 4 Hdev).
    + intros hist. reflexivity.
    + apply le_n.
Defined.

(** C7, at the input that breaks it: the body {error: "success"} carries
    the success marker and has no data.like_forum, since it has no data at
    all. [getTiebaList] does not return the empty list: each attempt throws
    the TypeError of reading like_forum of undefined, and after four
    attempts that error is thrown to the caller. *)
Lemma getTiebaList_without_data_throws :
  exists w' tr,
    getTiebaList (constantTransport 200 (JObject [("error", JString "success")]%string))
                 4 "BDUSS" freshWorld
      = Some (Throw (TypeError JUndefined "like_forum"), w', tr)
    /\ invocations tr = 4%nat
    /\ sleeps tr = [6000; 12000; 24000].
Proof. eexists. eexists. split; [vm_compute; reflexivity|]. split; reflexivity. Qed.

(** The part of C7 that the code does meet: with a data object that has no
    like_forum, the result is the empty list. *)
Lemma getTiebaList_without_like_forum {RNG}
    (transport : list Request -> Request -> AxiosResult) (bduss : string)
    (w : World RNG) (st : Z) (payload inner : JSValue) (fuel : nat) :
  transport (sent w) (getTiebaList_req bduss) = Resolved (mkResponse st payload) ->
  getProp payload "error" = Return (JString "success") ->
  getProp payload "data" = Return inner ->
  getProp inner "like_forum" = Return JUndefined ->
  (1 <= fuel)%nat ->
  exists w',
    getTiebaList transport fuel bduss w = Some (Return (JArray []), w', [Invoke]).
Proof.
  intros Ht He Hd Hl Hfuel.
  destruct (getTiebaList_request_no_like_forum transport bduss w st payload inner
              JUndefined Ht He Hd Hl eq_refl) as [w' Hreq].
  exists w'. apply withRetry_defaults_first_success; assumption.
Qed.

(** C8, as stated, does not hold: the body {tbs: 0} is there, its tbs field
    is there and is not the empty string, and [getTbs] fails. *)
Lemma getTbs_rejects_present_token :
  let payload := JObject [("tbs", JNumber 0)]%string in
  (exists w' tr,
      getTbs (constantTransport 200 payload) 4 "BDUSS" freshWorld
        = Some (Throw tbsFailed, w', tr))
  /\ ~ (body_absent payload \/ tbs_missing_or_empty payload).
Proof.
  split.
  - eexists. eexists. vm_compute. reflexivity.
  - unfold body_absent, tbs_missing_or_empty. simpl.
    intros [[H|[H|H]]|[H|H]]; discriminate H.
Qed.

(** C8, amended. When the server answers every request with the same body,
    [getTbs] fails if and only if the body is falsy or its tbs field is
    falsy (missing, null, false, 0 or the empty string), and the failure is
    the tbs error after four attempts; otherwise it returns the tbs field
    after one call. A tbs field that is a non-empty string is returned as
    it is. *)
Theorem getTbs_fails_iff_falsy {RNG} (transport : list Request -> Request -> AxiosResult)
    (bduss : string) (w : World RNG) (st : Z) (payload : JSValue) (fuel : nat) :
  (forall hist, transport hist (getTbs_req bduss) = Resolved (mkResponse st payload)) ->
  (4 <= fuel)%nat ->
  ((exists e w' tr, getTbs transport fuel bduss w = Some (Throw e, w', tr))
   <-> truthy payload = false \/ truthy (tbs_of payload) = false)
  /\ (truthy payload = false \/ truthy (tbs_of payload) = false ->
      exists w' tr,
        getTbs transport fuel bduss w = Some (Throw tbsFailed, w', tr)
        /\ invocations tr = 4%nat)
  /\ (truthy payload = true -> truthy (tbs_of payload) = true ->
      exists w',
        getTbs transport fuel bduss w = Some (Return (tbs_of payload), w', [Invoke]))
  /\ (forall s, getProp payload "tbs" = Return (JString s) -> s <> ""%string ->
      exists w',
        getTbs transport fuel bduss w = Some (Return (JString s), w', [Invoke])).
Proof.
  intros Ht Hfuel.
  assert (Hbad : truthy payload = false \/ truthy (tbs_of payload) = false ->
                 exists w' tr,
                   getTbs transport fuel bduss w = Some (Throw tbsFailed, w', tr)
                   /\ invocations tr = 4%nat).
  { intros Hfalsy.
    destruct (withRetry_defaults_always_throws
                (getTbs_request transport bduss) "获取TBS参数"
                tbsFailed (fun w : World RNG => afterRequest w (getTbs_req bduss)))
      with (fuel := fuel) (w := w) as [tr [Hrun [Hinv _]]].
    - intros w0. rewrite (getTbs_request_resolved _ _ _ st payload (Ht _)).
      destruct Hfalsy as [H|H]; rewrite H; simpl; [|rewrite orb_true_r]; reflexivity.
    - reflexivity.
    - exact Hfuel.
    - eexists. exists tr. split; [exact Hrun|exact Hinv]. }
  assert (Hgood : truthy payload = true -> truthy (tbs_of payload) = true ->
                  exists w',
                    getTbs transport fuel bduss w
                    = Some (Return (tbs_of payload), w', [Invoke])).
  { intros H1 H2. eexists.
    apply withRetry_defaults_first_success; [|lia].
    rewrite (getTbs_request_resolved _ _ _ st payload (Ht _)), H1, H2.
    reflexivity. }
  split; [|split; [exact Hbad|split; [exact Hgood|]]].
  - split.
    + intros [e [w' [tr Hrun]]].
      destruct (truthy payload) eqn:H1; [|left; reflexivity].
      destruct (truthy (tbs_of payload)) eqn:H2; [|right; reflexivity].
      destruct (Hgood eq_refl eq_refl) as [w2 Hret].
      rewrite Hret in Hrun. discriminate Hrun.
    + intros Hfalsy. destruct (Hbad Hfalsy) as [w' [tr [Hrun _]]].
      exists tbsFailed, w', tr. exact Hrun.
  - intros s Hs Hne.
    assert (Htbs : tbs_of payload = JString s) by (unfold tbs_of; rewrite Hs; reflexivity).
    rewrite <- Htbs. apply Hgood.
    + destruct payload; simpl in Hs; try discriminate Hs; reflexivity.
    + rewrite Htbs. simpl. apply negb_true_iff, String.eqb_neq. exact Hne.
Qed.

Lemma getTbs_fails_iff_falsy_witness :
  (exists w' tr,
     getTbs (constantTransport 200 (JObject [("tbs", JString "")]%string)) 4 "BDUSS"
            freshWorld
       = Some (Throw tbsFailed, w', tr)
     /\ invocations tr = 4%nat)
  /\ (exists w',
     getTbs (constantTransport 200 (JObject [("tbs", JString "abc123")]%string)) 4
            "BDUSS" freshWorld
       = Some (Return (JString "abc123"), w', [Invoke])).
Proof.
  split.
  - destruct (getTbs_fails_iff_falsy
                (constantTransport 200 (JObject [("tbs", JString "")]%string))
                "BDUSS" freshWorld 200 (JObject [("tbs", JString "")]%string) 4)
      as [_ [Hbad _]].
    + intros hist. reflexivity.
    + apply le_n.
    + apply Hbad. right. reflexivity.
  - destruct (getTbs_fails_iff_falsy
                (constantTransport 200 (JObject [("tbs", JString "abc123")]%string))
                "BDUSS" freshWorld 200 (JObject [("tbs", JString "abc123")]%string) 4)
      as [_ [_ [_ Hstr]]].
    + intros hist. reflexivity.
    + apply le_n.
    + apply (Hstr "abc123"%string); [reflexivity|discriminate].
Defined.

(** C9, as stated, does not hold: the body [false] is not null, and
    [signTieba] does not return it but fails with the empty-response
    error. *)
Lemma signTieba_rejects_false_body :
  (exists w' tr,
      signTieba (constantTransport 200 (JBool false)) plainQueryString 4
                "BDUSS" "bar" "tbs" 0 freshWorld
        = Some (Throw emptySignResponse, w', tr))
  /\ JBool false <> JNull
  /\ JBool false <> JUndefined.
Proof.
  split; [|split; discriminate].
  eexists. eexists. vm_compute. reflexivity.
Qed.

(** C9, amended. For every credential, community name, token and index,
    when the server answers every request with the same body: a truthy body
    (every object and array, every non-empty string, every non-zero number,
    [true]) is returned unchanged after one call; a falsy body (null, no
    body, the empty string, 0, false) makes [signTieba] fail with the
    empty-response error after four attempts. The index is not used: for
    any two values of it the request sent (form body of tbs, kw and ie, and
    headers) and the whole outcome are the same. *)
Theorem signTieba_returns_truthy_body {RNG}
    (transport : list Request -> Request -> AxiosResult)
    (toQueryString : list (string * string) -> string)
    (bduss tiebaName tbs : string) (index : Z) (w : World RNG) (st : Z)
    (payload : JSValue) (fuel : nat) :
  (forall hist,
      transport hist (signTieba_req toQueryString bduss tiebaName tbs)
      = Resolved (mkResponse st payload)) ->
  (4 <= fuel)%nat ->
  (truthy payload = true ->
   signTieba transport toQueryString fuel bduss tiebaName tbs index w
   = Some (Return payload,
           afterRequest w (signTieba_req toQueryString bduss tiebaName tbs),
           [Invoke]))
  /\ (truthy payload = false ->
      exists w' tr,
        signTieba transport toQueryString fuel bduss tiebaName tbs index w
          = Some (Throw emptySignResponse, w', tr)
        /\ invocations tr = 4%nat)
  /\ (forall index' fuel' (w0 : World RNG),
        signTieba transport toQueryString fuel' bduss tiebaName tbs index' w0
        = signTieba transport toQueryString fuel' bduss tiebaName tbs index w0).
Proof.
  intros Ht Hfuel. split; [|split].
  - intros Htruthy. apply withRetry_defaults_first_success; [|lia].
    rewrite (signTieba_request_resolved _ _ _ _ _ index _ st payload (Ht _)), Htruthy.
    reflexivity.
  - intros Hfalsy.
    destruct (withRetry_defaults_always_throws
                (signTieba_request transport toQueryString bduss tiebaName tbs index)
                "签到操作" emptySignResponse
                (fun w : World RNG =>
                   afterRequest w (signTieba_req toQueryString bduss tiebaName tbs)))
      with (fuel := fuel) (w := w) as [tr [Hrun [Hinv _]]].
    + intros w0.
      rewrite (signTieba_request_resolved _ _ _ _ _ index _ st payload (Ht _)), Hfalsy.
      reflexivity.
    + reflexivity.
    + exact Hfuel.
    + eexists. exists tr. split; [exact Hrun|exact Hinv].
  - intros index' fuel' w0. reflexivity.
Qed.

Lemma signTieba_returns_truthy_body_witness :
  signTieba (constantTransport 200 (JObject [("error_code", JString "0")]%string))
            plainQueryString 4 "BDUSS" "bar" "tbs" 7 freshWorld
  = Some (Return (JObject [("error_code", JString "0")]%string),
          afterRequest freshWorld (signTieba_req plainQueryString "BDUSS" "bar" "tbs"),
          [Invoke])
  /\ (exists w' tr,
        signTieba (constantTransport 200 JNull) plainQueryString 4
                  "BDUSS" "bar" "tbs" 7 freshWorld
          = Some (Throw emptySignResponse, w', tr)
        /\ invocations tr = 4%nat).
Proof.
  split.
  - destruct (signTieba_returns_truthy_body
                (constantTransport 200 (JObject [("error_code", JString "0")]%string))
                plainQueryString "BDUSS" "bar" "tbs" 7 freshWorld 200
                (JObject [("error_code", JString "0")]%string) 4)
      as [Hret _].
    + intros hist. reflexivity.
    + apply le_n.
    + apply Hret. reflexivity.
  - destruct (signTieba_returns_truthy_body
                (constantTransport 200 JNull)
                plainQueryString "BDUSS" "bar" "tbs" 7 freshWorld 200 JNull 4)
      as [_ [Hfail _]].
    + intros hist. reflexivity.
    + apply le_n.
    + apply Hfail. reflexivity.
Defined.

(** C10. When the body of the answer to [getTiebaList] carries the success
    marker and has no data field, an attempt does not return the empty
    list: the read of like_forum on undefined throws a TypeError. That error
    has no response attached, so [withRetry] takes it for a retryable
    failure of class [Other]: with the same answer to every request, four
    attempts are made with sleeps of 6, 12 and 24 seconds, the TypeError is
    thrown, and no amount of fuel makes the call return a list. *)
Theorem getTiebaList_missing_data_is_retried {RNG}
    (transport : list Request -> Request -> AxiosResult) (bduss : string)
    (w : World RNG) (st : Z) (payload : JSValue) (fuel : nat) :
  getProp payload "error" = Return (JString "success") ->
  getProp payload "data" = Return JUndefined ->
  (forall hist,
      transport hist (getTiebaList_req bduss) = Resolved (mkResponse st payload)) ->
  (4 <= fuel)%nat ->
  getTiebaList_request transport bduss w
    = (Throw (TypeError JUndefined "like_forum"),
       afterRequest w (getTiebaList_req bduss))
  /\ classify (TypeError JUndefined "like_forum") = Other
  /\ retryable (TypeError JUndefined "like_forum") = true
  /\ (exists w' tr,
        getTiebaList transport fuel bduss w
          = Some (Throw (TypeError JUndefined "like_forum"), w', tr)
        /\ invocations tr = 4%nat
        /\ sleeps tr = [6000; 12000; 24000])
  /\ (forall fuel' v w' tr,
        getTiebaList transport fuel' bduss w <> Some (Return v, w', tr)).
Proof.
  intros He Hd Ht Hfuel.
  assert (Hattempt : forall w0 : World RNG,
             getTiebaList_request transport bduss w0
             = (Throw (TypeError JUndefined "like_forum"),
                afterRequest w0 (getTiebaList_req bduss)))
    by (intros w0; apply (getTiebaList_request_no_data _ _ _ st payload);
        [apply Ht|exact He|exact Hd]).
  assert (Hrun : forall n, (4 <= n)%nat ->
             exists w' tr,
               getTiebaList transport n bduss w
               = Some (Throw (TypeError JUndefined "like_forum"), w', tr)
               /\ invocations tr = 4%nat
               /\ sleeps tr = [6000; 12000; 24000]).
  { intros n Hn.
    destruct (withRetry_defaults_always_throws
                (getTiebaList_request transport bduss) "获取贴吧列表"
                (TypeError JUndefined "like_forum")
                (fun w : World RNG => afterRequest w (getTiebaList_req bduss))
                Hattempt eq_refl n w Hn) as [tr Htr].
    eexists. exists tr. exact Htr. }
  split; [apply Hattempt|]. split; [reflexivity|]. split; [reflexivity|].
  split; [apply Hrun; exact Hfuel|].
  intros fuel' v w' tr Hret.
  apply (withRetry_loop_more_fuel _ _ _ _ fuel' 4) in Hret.
  destruct (Hrun (fuel' + 4)%nat) as [w2 [tr2 [Hthrow _]]]; [lia|].
  unfold getTiebaList, withRetry_defaults, withRetry in Hthrow.
  rewrite Hret in Hthrow. discriminate Hthrow.
Qed.

Lemma getTiebaList_missing_data_is_retried_witness :
  getTiebaList_request
    (constantTransport 200 (JObject [("error", JString "success");
                                     ("error_msg", JString "")]%string))
    "BDUSS" freshWorld
  = (Throw (TypeError JUndefined "like_forum"),
     afterRequest freshWorld (getTiebaList_req "BDUSS"))
  /\ classify (TypeError JUndefined "like_forum") = Other
  /\ retryable (TypeError JUndefined "like_forum") = true
  /\ (exists w' tr,
        getTiebaList
          (constantTransport 200 (JObject [("error", JString "success");
                                           ("error_msg", JString "")]%string))
          5 "BDUSS" freshWorld
          = Some (Throw (TypeError JUndefined "like_forum"), w', tr)
        /\ invocations tr = 4%nat
        /\ sleeps tr = [6000; 12000; 24000])
  /\ (forall fuel' v w' tr,
        getTiebaList
          (constantTransport 200 (JObject [("error", JString "success");
                                           ("error_msg", JString "")]%string))
          fuel' "BDUSS" freshWorld
        <> Some (Return v, w', tr)).
Proof.
  apply (getTiebaList_missing_data_is_retried
           (constantTransport 200 (JObject [("error", JString "success");
                                            ("error_msg", JString "")]%string))
           "BDUSS" freshWorld 200
           (JObject [("error", JString "success"); ("error_msg", JString "")]%string)
           5).
  - reflexivity.
  - reflexivity.
  - intros hist. reflexivity.
  - repeat constructor.
Defined.

(** * Further properties of withRetry *)

Lemma consoleErrors_app (a b : list Effect) :
  consoleErrors (a ++ b) = (consoleErrors a + consoleErrors b)%nat.
Proof.
  induction a as [|x a IH]; simpl; [reflexivity|].
  destruct x; simpl; rewrite IH; reflexivity.
Qed.

Lemma consoleWarns_app (a b : list Effect) :
  consoleWarns (a ++ b) = (consoleWarns a + consoleWarns b)%nat.
Proof.
  induction a as [|x a IH]; simpl; [reflexivity|].
  destruct x; simpl; rewrite IH; reflexivity.
Qed.

Section WithRetryRuns.

Context {W T : Type}.
Variable requestFn : Async.M W T.
Variable operationName : string.
Variables maxRetries delayMultiplier : Z.

Local Notation "'loop'" :=
  (withRetry_loop requestFn operationName maxRetries delayMultiplier).

(** Every finished run: some retryable failures within the budget, each
    warned about and slept after, then one last call whose completion is the
    result. *)
Lemma loop_run fuel : forall retries delay w c w' tr,
  loop fuel retries delay w = Some (c, w', tr) ->
  exists es w1,
    fails_with requestFn w es w1
    /\ forallb retryable es = true
    /\ (es = [] \/ retries + Z.of_nat (List.length es) <= maxRetries)
    /\ requestFn w1 = (c, w')
    /\ invocations tr = S (List.length es)
    /\ sleeps tr = spec_delays delayMultiplier delay es
    /\ consoleWarns tr = List.length es
    /\ match c with
       | Return _ => consoleErrors tr = O
       | Throw e =>
           consoleErrors tr = 1%nat
           /\ (maxRetries < retries + Z.of_nat (List.length es) + 1
               \/ classify e = ClientError)
       end.
Proof.
  induction fuel as [|fuel IH]; intros retries delay w c w' tr H; [discriminate|].
  simpl in H. destruct (requestFn w) as [[v|e] w1] eqn:Hreq.
  - inversion H; subst. exists [], w. simpl. repeat split; auto.
  - destruct (retries + 1 >? maxRetries) eqn:Hgt.
    + simpl in H. inversion H; subst. exists [], w. simpl.
      repeat split; auto. left. rewrite Z.gtb_ltb in Hgt.
      apply Z.ltb_lt in Hgt. lia.
    + rewrite Z.gtb_ltb in Hgt. apply Z.ltb_ge in Hgt.
      destruct (negb (isRateLimited e) && isClientError e) eqn:Hce.
      * simpl in H. inversion H; subst. exists [], w. simpl.
        repeat split; auto. right.
        apply andb_true_iff in Hce. destruct Hce as [H1 H2].
        apply negb_true_iff in H1. apply classify_ClientError; assumption.
      * simpl in H.
        assert (Hr : retryable e = true)
          by (rewrite retryable_tests, Hce; reflexivity).
        assert (Hstep : exists tr' pre,
                   loop fuel (retries + 1)
                        (spec_escalate delayMultiplier delay e) w1
                   = Some (c, w', tr')
                   /\ tr = (pre ++ tr')%list
                   /\ invocations pre = 1%nat
                   /\ sleeps pre = [spec_escalate delayMultiplier delay e]
                   /\ consoleWarns pre = 1%nat
                   /\ consoleErrors pre = O).
        { unfold spec_escalate, classify.
          destruct (isRateLimited e);
            [|replace (isClientError e) with false
                by (symmetry; simpl in Hce; exact Hce)];
            apply after_Some in H; destruct H as [tr' [H ->]];
            eexists; eexists; (split; [exact H|]); repeat split. }
        destruct Hstep as [tr' [pre [Hrec [-> [Hi [Hs [Hw Hcerr]]]]]]].
        destruct (IH _ _ _ _ _ _ Hrec)
          as [es [w2 [Hf [Hall [Hlen [Hlast [Hinv [Hsl [Hwarn Hend]]]]]]]]].
        exists (e :: es), w2.
        split; [exists w1; split; assumption|].
        split; [simpl; rewrite Hr, Hall; reflexivity|].
        split; [right; cbn [List.length]; destruct Hlen as [->|Hlen]; simpl; lia|].
        split; [exact Hlast|].
        split; [rewrite invocations_app, Hi, Hinv; reflexivity|].
        split; [rewrite sleeps_app, Hs, Hsl; reflexivity|].
        split; [rewrite consoleWarns_app, Hw, Hwarn; reflexivity|].
        destruct c as [v|e'].
        -- rewrite consoleErrors_app, Hcerr, Hend. reflexivity.
        -- destruct Hend as [Hone Hwhy]. split.
           ++ rewrite consoleErrors_app, Hcerr, Hone. reflexivity.
           ++ cbn [List.length]. destruct Hwhy as [Hwhy|Hwhy]; [left; lia|right; exact Hwhy].
Qed.

End WithRetryRuns.

Lemma spec_delays_length M d es :
  List.length (spec_delays M d es) = List.length es.
Proof.
  revert d. induction es as [|e es IH]; intros d; simpl; [reflexivity|].
  rewrite IH. reflexivity.
Qed.

Lemma spec_escalate_grows M d e : 0 <= d -> 1 <= M -> d * M <= spec_escalate M d e.
Proof. intros Hd HM. unfold spec_escalate. destruct (classify e); nia. Qed.

Lemma spec_delays_sorted M es : forall d,
  0 <= d -> 1 <= M ->
  Forall (Z.le (d * M)) (spec_delays M d es)
  /\ StronglySorted Z.le (spec_delays M d es).
Proof.
  induction es as [|e es IH]; intros d Hd HM; simpl.
  - split; constructor.
  - pose proof (spec_escalate_grows M d e Hd HM) as Hg.
    destruct (IH (spec_escalate M d e)) as [Hall Hsorted]; [nia|exact HM|].
    assert (Hup : Forall (Z.le (spec_escalate M d e))
                         (spec_delays M (spec_escalate M d e) es)).
    { eapply Forall_impl; [|exact Hall]. intros a Ha. simpl in Ha. nia. }
    split.
    + constructor; [exact Hg|].
      eapply Forall_impl; [|exact Hup]. intros a Ha. simpl in Ha. lia.
    + constructor; assumption.
Qed.

(** X1. [withRetry] always comes to an end: whatever the operation does,
    more than maxRetries turns of the loop are enough, and the operation is
    called at most maxRetries + 1 times (once when maxRetries is negative). *)
Theorem withRetry_terminates_within_budget {W T} (requestFn : Async.M W T)
    (operationName : string) (maxRetries initialDelay delayMultiplier : Z)
    (fuel : nat) (w : W) :
  (Z.to_nat maxRetries < fuel)%nat ->
  exists c w' tr,
    withRetry fuel requestFn operationName maxRetries initialDelay delayMultiplier w
      = Some (c, w', tr)
    /\ (1 <= invocations tr <= Z.to_nat maxRetries + 1)%nat.
Proof.
  intros Hfuel.
  destruct (withRetry_loop_terminates requestFn operationName maxRetries
              delayMultiplier fuel 0 initialDelay w)
    as [[[c w'] tr] Hrun]; [rewrite Z.sub_0_r; exact Hfuel|].
  exists c, w', tr. split; [exact Hrun|].
  destruct (loop_run _ _ _ _ _ _ _ _ _ _ _ Hrun)
    as [es [w1 [_ [_ [Hlen [_ [Hinv _]]]]]]].
  rewrite Hinv. destruct Hlen as [->|Hlen]; simpl; lia.
Qed.

Lemma withRetry_terminates_within_budget_witness :
  exists c w' tr,
    withRetry 3 (scripted [status500; status429; networkError]) "op" 2 3000 2 O
      = Some (c, w', tr)
    /\ (1 <= invocations tr <= Z.to_nat 2 + 1)%nat.
Proof.
  apply (withRetry_terminates_within_budget
           (scripted [status500; status429; networkError]) "op" 2 3000 2 3 O).
  apply le_n.
Defined.





(** X4. With maxRetries at 0 or below nothing is retried: a first failure
    of any class, a 429 included, is thrown after the single call, with no
    sleep. *)
Theorem withRetry_no_budget_no_retry {W T} (requestFn : Async.M W T)
    (operationName : string) (maxRetries initialDelay delayMultiplier : Z)
    (fuel : nat) (w w' : W) (e : JSError) :
  maxRetries <= 0 ->
  requestFn w = (Throw e, w') ->
  withRetry (S fuel) requestFn operationName maxRetries initialDelay
            delayMultiplier w
  = Some (Throw e, w', [Invoke; ConsoleError (errorLine operationName 1 e)]).
Proof.
  intros Hle Hreq. unfold withRetry.
  rewrite (loop_exhausted _ _ _ _ _ _ _ _ _ _ Hreq) by lia.
  reflexivity.
Qed.

Lemma withRetry_no_budget_no_retry_witness :
  withRetry 1 (alwaysFailing status429) "op" 0 3000 2 O
  = Some (Throw status429, 1%nat, [Invoke; ConsoleError (errorLine "op" 1 status429)]).
Proof.
  apply (withRetry_no_budget_no_retry (alwaysFailing status429) "op" 0 3000 2 0
                                      O 1%nat status429).
  - discriminate.
  - reflexivity.
Defined.



(** X6. The backoff never shrinks: with an initial delay D >= 0 and a
    multiplier M >= 1 that are safe integers, and sleeps that stay safe
    integers, the sleeps of any run are in non-decreasing order and each is
    at least D * M. When D > 0 and M > 1 every sleep is longer than the
    initial delay, which is then never the time slept (with M = 1 it can
    be). *)
Theorem withRetry_backoff_monotone {W T} (requestFn : Async.M W T)
    (operationName : string) (maxRetries D M : Z)
    (fuel : nat) (w w' : W) (c : Completion T) (tr : list Effect) :
  isSafeInteger D ->
  isSafeInteger M ->
  0 <= D ->
  1 <= M ->
  withRetry fuel requestFn operationName maxRetries D M w = Some (c, w', tr) ->
  Forall isSafeInteger (sleeps tr) ->
  StronglySorted Z.le (sleeps tr)
  /\ Forall (Z.le (D * M)) (sleeps tr)
  /\ (0 < D -> 1 < M -> Forall (Z.lt D) (sleeps tr)).
Proof.
  intros HsD HsM HD HM Hrun Hsafe. apply loop_run in Hrun.
  destruct Hrun as [es [w1 [_ [_ [_ [_ [_ [Hsl _]]]]]]]].
  rewrite Hsl. destruct (spec_delays_sorted M es D HD HM) as [Hall Hsorted].
  split; [exact Hsorted|]. split; [exact Hall|].
  intros HDpos HMgt. eapply Forall_impl; [|exact Hall].
  intros a Ha. simpl in Ha. nia.
Qed.

Lemma withRetry_backoff_monotone_witness :
  StronglySorted Z.le [6000; 24000; 48000]
  /\ Forall (Z.le (3000 * 2)) [6000; 24000; 48000]
  /\ Forall (Z.lt 3000) [6000; 24000; 48000].
Proof.
  destruct (withRetry_backoff_monotone
              (scripted [status500; status429; networkError]) "op" 3 3000 2 4
              O 4%nat (Return tt)
              [Invoke; ConsoleWarn (retryLine "op" 6000 1 3); Sleep 6000;
               Invoke; ConsoleWarn (rateLimitLine 24000 2 3); Sleep 24000;
               Invoke; ConsoleWarn (retryLine "op" 48000 3 3); Sleep 48000;
               Invoke])
    as [Hsorted [Hall Hlt]].
  - reflexivity.
  - reflexivity.
  - discriminate.
  - discriminate.
  - reflexivity.
  - repeat constructor.
  - split; [exact Hsorted|]. split; [exact Hall|].
    apply Hlt; reflexivity.
Defined.

(** X7. Under the default policy (3 retries, 3000 ms, multiplier 2) any
    operation is called at most 4 times, no sleep is shorter than 6000 ms,
    and the sleeps of a run add up to at most 252000 ms, 42000 ms when no
    failure was a 429. *)
Theorem withRetry_defaults_bounds {W T} (requestFn : Async.M W T)
    (operationName : string) (fuel : nat) (w w' : W) (c : Completion T)
    (tr : list Effect) :
  withRetry_defaults fuel requestFn operationName w = Some (c, w', tr) ->
  (invocations tr <= 4)%nat
  /\ Forall (Z.le 6000) (sleeps tr)
  /\ totalSleep tr <= 252000
  /\ exists es w1,
       fails_with requestFn w es w1
       /\ invocations tr = S (List.length es)
       /\ (forallb (fun e => negb (isRateLimited e)) es = true ->
           totalSleep tr <= 42000).
Proof.
  intros Hrun. unfold withRetry_defaults, withRetry in Hrun.
  pose proof Hrun as Hshape. apply loop_run in Hshape.
  destruct Hshape as [es [w1 [Hf [Hall [Hlen [_ [Hinv [Hsl _]]]]]]]].
  assert (Hk : (List.length es <= 3)%nat)
    by (destruct Hlen as [->|Hlen]; [simpl; lia|unfold MAX_RETRIES in Hlen; lia]).
  split; [lia|].
  split.
  { rewrite Hsl.
    apply (spec_delays_sorted RETRY_MULTIPLIER es RETRY_DELAY); discriminate. }
  assert (Hesc : forall d e,
             spec_escalate RETRY_MULTIPLIER d e
             = if isRateLimited e then d * 4 else d * 2).
  { intros d e. unfold spec_escalate, classify, RETRY_MULTIPLIER.
    destruct (isRateLimited e); [ring|]. destruct (isClientError e); reflexivity. }
  unfold totalSleep. rewrite Hsl. unfold RETRY_DELAY. clear Hsl Hrun Hlen Hall.
  split.
  - destruct es as [|e1 [|e2 [|e3 [|e4 es]]]]; simpl in Hk; try lia;
      simpl; rewrite ?Hesc;
      repeat match goal with
             | |- context [isRateLimited ?e] => destruct (isRateLimited e)
             end; simpl; lia.
  - exists es, w1. split; [exact Hf|]. split.
    + exact Hinv.
    + intros Hno.
      destruct es as [|e1 [|e2 [|e3 [|e4 es]]]]; simpl in Hk; try lia;
        simpl in Hno; simpl; rewrite ?Hesc;
        repeat match goal with
               | H : _ && _ = true |- _ => apply andb_true_iff in H; destruct H
               | H : negb _ = true |- _ => apply negb_true_iff in H; rewrite H
               end; simpl; lia.
Qed.

Lemma withRetry_defaults_bounds_witness :
  (invocations [Invoke; ConsoleWarn (rateLimitLine 12000 1 3); Sleep 12000;
                Invoke; ConsoleWarn (rateLimitLine 48000 2 3); Sleep 48000;
                Invoke; ConsoleWarn (rateLimitLine 192000 3 3); Sleep 192000;
                Invoke; ConsoleError (errorLine "op" 4 status429)] <= 4)%nat
  /\ Forall (Z.le 6000) [12000; 48000; 192000]
  /\ 12000 + (48000 + (192000 + 0)) <= 252000
  /\ exists es w1,
       fails_with (alwaysFailing status429) O es w1
       /\ 4%nat = S (List.length es)
       /\ (forallb (fun e => negb (isRateLimited e)) es = true ->
           12000 + (48000 + (192000 + 0)) <= 42000).
Proof.
  apply (withRetry_defaults_bounds (alwaysFailing status429) "op" 4 O 4%nat
                                   (Throw status429)).
  reflexivity.
Defined.

(** * Further properties of the endpoint calls *)

Lemma strict_eq_number_true v n : strict_eq_number v n = true -> v = JNumber n.
Proof.
  destruct v; simpl; try discriminate. intros H. apply Z.eqb_eq in H. subst.
  reflexivity.
Qed.

Lemma strict_eq_string_true v s : strict_eq_string v s = true -> v = JString s.
Proof.
  destruct v; simpl; try discriminate. intros H. apply String.eqb_eq in H. subst.
  reflexivity.
Qed.

Lemma repeat_snoc {A} (x : A) n : (repeat x n ++ [x])%list = repeat x (S n).
Proof. induction n as [|n IH]; simpl; [reflexivity|]. rewrite IH. reflexivity. Qed.

(** Failed attempts that each send [req] and touch nothing else. *)
Lemma fails_with_requests {RNG T} (requestFn : Async.M (World RNG) T) (req : Request) :
  (forall w e w1, requestFn w = (Throw e, w1) -> w1 = afterRequest w req) ->
  forall es w w1,
    fails_with requestFn w es w1 ->
    sent w1 = (sent w ++ repeat req (List.length es))%list
    /\ console w1 = console w
    /\ rng w1 = rng w.
Proof.
  intros Hstep es. induction es as [|e es IH]; intros w w1 Hf.
  - simpl in Hf. subst. simpl. rewrite app_nil_r. repeat split.
  - destruct Hf as [w2 [Hreq Hf]]. apply Hstep in Hreq. subst w2.
    destruct (IH _ _ Hf) as [Hs [Hc Hr]]. simpl in Hs, Hc, Hr.
    split; [|split; assumption].
    rewrite Hs, <- app_assoc. reflexivity.
Qed.

Section Attempts.

Context {RNG : Type}.
Variable transport : list Request -> Request -> AxiosResult.
Variable generateDeviceId : RNG -> string * RNG.
Variable toQueryString : list (string * string) -> string.

(** An attempt that throws has sent its request and done nothing else. *)
Lemma login_request_throw bduss (w w1 : World RNG) e :
  login_request transport generateDeviceId bduss w = (Throw e, w1) ->
  w1 = afterRequest w (login_req bduss).
Proof.
  intros H. unfold login_request, Async.bind, axios_get, axios in H.
  fold (login_req bduss) in H.
  unfold Async.lift, Async.throw, orElse, andThen, callGenerateDeviceId,
    console_log, Async.ret in H.
  throw_cases; reflexivity.
Qed.

Lemma getTiebaList_request_throw bduss (w w1 : World RNG) e :
  getTiebaList_request transport bduss w = (Throw e, w1) ->
  w1 = afterRequest w (getTiebaList_req bduss).
Proof.
  intros H. unfold getTiebaList_request, Async.bind, axios_get, axios in H.
  fold (getTiebaList_req bduss) in H.
  unfold Async.lift, Async.throw, orElse, andThen, console_log, Async.ret in H.
  throw_cases; reflexivity.
Qed.

(** [getTbs] and [signTieba] attempts only ever send their request. *)
Lemma getTbs_request_world bduss (w : World RNG) :
  snd (getTbs_request transport bduss w) = afterRequest w (getTbs_req bduss).
Proof.
  unfold getTbs_request, Async.bind, axios_get, axios.
  fold (getTbs_req bduss).
  unfold Async.lift, Async.throw, orElse, andThen, Async.ret.
  attempt_cases.
Qed.

Lemma signTieba_request_world bduss tiebaName tbs index (w : World RNG) :
  snd (signTieba_request transport toQueryString bduss tiebaName tbs index w)
  = afterRequest w (signTieba_req toQueryString bduss tiebaName tbs).
Proof.
  unfold signTieba_request, Async.bind, axios_post, axios.
  fold (signTieba_req toQueryString bduss tiebaName tbs).
  unfold Async.throw, Async.ret.
  attempt_cases.
Qed.

(** What a returning attempt of [login] has seen and done. *)
Lemma login_request_return bduss (w w1 : World RNG) info :
  login_request transport generateDeviceId bduss w = (Return info, w1) ->
  exists r inner,
    transport (sent w) (login_req bduss) = Resolved r
    /\ truthy (data r) = true
    /\ getProp (data r) "no" = Return (JNumber 0)
    /\ getProp (data r) "error" = Return (JString "success")
    /\ getProp (data r) "data" = Return inner
    /\ getProp inner "user_id" = Return (userId info)
    /\ info = mkUserInfo 200 bduss (userId info) true
                         (fst (generateDeviceId (rng w)))
    /\ w1 = mkWorld (sent w ++ [login_req bduss])%list
                    (console w ++ [[Lit "🔐 验证BDUSS成功"]])%list
                    (snd (generateDeviceId (rng w))).
Proof.
  intros H. unfold login_request, Async.bind, axios_get, axios in H.
  fold (login_req bduss) in H.
  destruct (transport (sent w) (login_req bduss)) as [r|e] eqn:Ht;
    [|discriminate H].
  unfold Async.lift, Async.throw, orElse, andThen in H.
  destruct (truthy (data r)) eqn:Htruthy; simpl in H; [|discriminate H].
  destruct (getProp (data r) "no") as [vno|] eqn:Hno; [|discriminate H].
  destruct (strict_eq_number vno 0) eqn:Hzero; simpl in H; [|discriminate H].
  destruct (getProp (data r) "error") as [verr|] eqn:Herr; [|discriminate H].
  destruct (strict_eq_string verr "success") eqn:Hsucc; simpl in H;
    [|discriminate H].
  destruct (getProp (data r) "data") as [inner|] eqn:Hdata; [|discriminate H].
  destruct (getProp inner "user_id") as [uid|] eqn:Huid; [|discriminate H].
  unfold callGenerateDeviceId, console_log, Async.ret in H. simpl in H.
  destruct (generateDeviceId (rng w)) as [id g] eqn:Hgen. simpl in H.
  inversion H; subst; clear H.
  apply strict_eq_number_true in Hzero. apply strict_eq_string_true in Hsucc.
  subst. exists r, inner. simpl. repeat split; assumption.
Qed.

(** The attempt of [login] on a body that passes the check. *)
Lemma login_request_accepts bduss (w : World RNG) st payload inner uid :
  transport (sent w) (login_req bduss) = Resolved (mkResponse st payload) ->
  getProp payload "no" = Return (JNumber 0) ->
  getProp payload "error" = Return (JString "success") ->
  getProp payload "data" = Return inner ->
  getProp inner "user_id" = Return uid ->
  login_request transport generateDeviceId bduss w
  = (Return (mkUserInfo 200 bduss uid true (fst (generateDeviceId (rng w)))),
     mkWorld (sent w ++ [login_req bduss])%list
             (console w ++ [[Lit "🔐 验证BDUSS成功"]])%list
             (snd (generateDeviceId (rng w)))).
Proof.
  intros Ht Hno Herr Hdata Huid.
  unfold login_request, Async.bind, axios_get, axios.
  fold (login_req bduss). rewrite Ht.
  destruct payload; try discriminate Herr.
  cbn [data truthy negb orElse andThen Async.lift]. rewrite Hno, Herr, Hdata.
  simpl. rewrite Huid. unfold callGenerateDeviceId. simpl.
  destruct (generateDeviceId (rng w)) as [id g]. reflexivity.
Qed.

(** The attempt of any operation when axios rejects. *)
Lemma login_request_rejected bduss (w : World RNG) e :
  transport (sent w) (login_req bduss) = Rejected e ->
  login_request transport generateDeviceId bduss w
  = (Throw e, afterRequest w (login_req bduss)).
Proof.
  intros Ht. unfold login_request, Async.bind, axios_get, axios.
  fold (login_req bduss). rewrite Ht. reflexivity.
Qed.

Lemma getTiebaList_request_rejected bduss (w : World RNG) e :
  transport (sent w) (getTiebaList_req bduss) = Rejected e ->
  getTiebaList_request transport bduss w
  = (Throw e, afterRequest w (getTiebaList_req bduss)).
Proof.
  intros Ht. unfold getTiebaList_request, Async.bind, axios_get, axios.
  fold (getTiebaList_req bduss). rewrite Ht. reflexivity.
Qed.

Lemma getTbs_request_rejected bduss (w : World RNG) e :
  transport (sent w) (getTbs_req bduss) = Rejected e ->
  getTbs_request transport bduss w = (Throw e, afterRequest w (getTbs_req bduss)).
Proof.
  intros Ht. unfold getTbs_request, Async.bind, axios_get, axios.
  fold (getTbs_req bduss). rewrite Ht. reflexivity.
Qed.

Lemma signTieba_request_rejected bduss tiebaName tbs index (w : World RNG) e :
  transport (sent w) (signTieba_req toQueryString bduss tiebaName tbs) = Rejected e ->
  signTieba_request transport toQueryString bduss tiebaName tbs index w
  = (Throw e, afterRequest w (signTieba_req toQueryString bduss tiebaName tbs)).
Proof.
  intros Ht. unfold signTieba_request, Async.bind, axios_post, axios.
  fold (signTieba_req toQueryString bduss tiebaName tbs). rewrite Ht. reflexivity.
Qed.

End Attempts.

Section MoreAttempts.

Context {RNG : Type}.
Variable transport : list Request -> Request -> AxiosResult.
Variable generateDeviceId : RNG -> string * RNG.

Lemma login_request_sent bduss (w : World RNG) :
  sent (snd (login_request transport generateDeviceId bduss w))
  = (sent w ++ [login_req bduss])%list.
Proof.
  unfold login_request, Async.bind, axios_get, axios.
  fold (login_req bduss).
  unfold Async.lift, Async.throw, orElse, andThen, callGenerateDeviceId,
    console_log, Async.ret.
  attempt_cases.
Qed.

Lemma getTiebaList_request_sent bduss (w : World RNG) :
  sent (snd (getTiebaList_request transport bduss w))
  = (sent w ++ [getTiebaList_req bduss])%list.
Proof.
  unfold getTiebaList_request, Async.bind, axios_get, axios.
  fold (getTiebaList_req bduss).
  unfold Async.lift, Async.throw, orElse, andThen, console_log, Async.ret.
  attempt_cases.
Qed.

Lemma login_request_no_data bduss (w : World RNG) st payload :
  transport (sent w) (login_req bduss) = Resolved (mkResponse st payload) ->
  getProp payload "no" = Return (JNumber 0) ->
  getProp payload "error" = Return (JString "success") ->
  getProp payload "data" = Return JUndefined ->
  login_request transport generateDeviceId bduss w
  = (Throw (TypeError JUndefined "user_id"), afterRequest w (login_req bduss)).
Proof.
  intros Ht Hno Herr Hdata.
  unfold login_request, Async.bind, axios_get, axios.
  fold (login_req bduss). rewrite Ht.
  destruct payload; try discriminate Herr.
  cbn [data truthy negb orElse andThen Async.lift]. rewrite Hno, Herr, Hdata.
  reflexivity.
Qed.



End MoreAttempts.

(** A run whose attempts each send [req]: as many requests as calls, and
    nothing else touched when the run ends in a throw. *)
Lemma run_requests {RNG T} (requestFn : Async.M (World RNG) T) (req : Request)
    operationName maxRetries delayMultiplier fuel retries delay
    (w w' : World RNG) c tr :
  (forall w, sent (snd (requestFn w)) = (sent w ++ [req])%list) ->
  (forall w e w1, requestFn w = (Throw e, w1) -> w1 = afterRequest w req) ->
  withRetry_loop requestFn operationName maxRetries delayMultiplier
                 fuel retries delay w = Some (c, w', tr) ->
  sent w' = (sent w ++ repeat req (invocations tr))%list
  /\ (forall e, c = Throw e -> console w' = console w /\ rng w' = rng w).
Proof.
  intros Hsent Hthrow Hrun. apply loop_run in Hrun.
  destruct Hrun as [es [w1 [Hf [_ [_ [Hlast [Hinv _]]]]]]].
  destruct (fails_with_requests requestFn req Hthrow es w w1 Hf) as [Hs [Hc Hr]].
  split.
  - pose proof (Hsent w1) as Hs1. rewrite Hlast in Hs1. simpl in Hs1.
    rewrite Hs1, Hs, Hinv, <- app_assoc, repeat_snoc. reflexivity.
  - intros e ->. apply Hthrow in Hlast. subst w'. simpl. split; assumption.
Qed.

(** A run whose attempts only ever send [req]. *)
Lemma run_only_requests {RNG T} (requestFn : Async.M (World RNG) T) (req : Request)
    operationName maxRetries delayMultiplier fuel retries delay
    (w w' : World RNG) c tr :
  (forall w, snd (requestFn w) = afterRequest w req) ->
  withRetry_loop requestFn operationName maxRetries delayMultiplier
                 fuel retries delay w = Some (c, w', tr) ->
  sent w' = (sent w ++ repeat req (invocations tr))%list
  /\ console w' = console w /\ rng w' = rng w.
Proof.
  intros Hworld Hrun.
  assert (Hthrow : forall w e w1, requestFn w = (Throw e, w1) -> w1 = afterRequest w req).
  { intros w0 e w1 H. rewrite <- Hworld, H. reflexivity. }
  pose proof Hrun as Hshape. apply loop_run in Hshape.
  destruct Hshape as [es [w1 [Hf [_ [_ [Hlast [Hinv _]]]]]]].
  destruct (fails_with_requests requestFn req Hthrow es w w1 Hf) as [Hs [Hc Hr]].
  pose proof (Hworld w1) as Hw. rewrite Hlast in Hw. simpl in Hw. subst w'.
  simpl. split; [|split; assumption].
  rewrite Hs, Hinv, <- app_assoc, repeat_snoc. reflexivity.
Qed.

(** X8. One HTTP request per attempt: when any of the four operations
    ends, whatever the server did, the requests it has sent are exactly as
    many copies of its one request as the operation was attempted. *)
Theorem endpoint_requests_match_attempts {RNG}
    (transport : list Request -> Request -> AxiosResult)
    (generateDeviceId : RNG -> string * RNG)
    (toQueryString : list (string * string) -> string)
    (bduss tiebaName tbs : string) (index : Z) (fuel : nat) (w : World RNG) :
  (forall c w' tr,
      login transport generateDeviceId fuel bduss w = Some (c, w', tr) ->
      sent w' = (sent w ++ repeat (login_req bduss) (invocations tr))%list)
  /\ (forall c w' tr,
      getTiebaList transport fuel bduss w = Some (c, w', tr) ->
      sent w' = (sent w ++ repeat (getTiebaList_req bduss) (invocations tr))%list)
  /\ (forall c w' tr,
      getTbs transport fuel bduss w = Some (c, w', tr) ->
      sent w' = (sent w ++ repeat (getTbs_req bduss) (invocations tr))%list)
  /\ (forall c w' tr,
      signTieba transport toQueryString fuel bduss tiebaName tbs index w
        = Some (c, w', tr) ->
      sent w' = (sent w ++ repeat (signTieba_req toQueryString bduss tiebaName tbs)
                                  (invocations tr))%list).
Proof.
  split; [|split; [|split]]; intros c w' tr Hrun.
  - refine (proj1 (run_requests _ (login_req bduss) _ _ _ _ _ _ _ _ _ _ _ _ Hrun)).
    + apply login_request_sent.
    + intros w0 e w1 H. eapply login_request_throw. exact H.
  - refine (proj1 (run_requests _ (getTiebaList_req bduss)
                                _ _ _ _ _ _ _ _ _ _ _ _ Hrun)).
    + apply getTiebaList_request_sent.
    + intros w0 e w1 H. eapply getTiebaList_request_throw. exact H.
  - refine (proj1 (run_only_requests _ (getTbs_req bduss)
                                     _ _ _ _ _ _ _ _ _ _ _ Hrun)).
    apply getTbs_request_world.
  - refine (proj1 (run_only_requests
                     _ (signTieba_req toQueryString bduss tiebaName tbs)
                     _ _ _ _ _ _ _ _ _ _ _ Hrun)).
    apply signTieba_request_world.
Qed.

Lemma endpoint_requests_match_attempts_witness :
  (exists c w' tr,
     login (constantTransport 200 (JObject [])) counterDeviceId 4 "BDUSS" freshWorld
       = Some (c, w', tr)
     /\ sent w' = (sent freshWorld ++ repeat (login_req "BDUSS") (invocations tr))%list)
  /\ (exists c w' tr,
     getTiebaList (constantTransport 200 (JObject [])) 4 "BDUSS" freshWorld
       = Some (c, w', tr)
     /\ sent w' = (sent freshWorld
                   ++ repeat (getTiebaList_req "BDUSS") (invocations tr))%list)
  /\ (exists c w' tr,
     getTbs (constantTransport 200 (JObject [])) 4 "BDUSS" freshWorld
       = Some (c, w', tr)
     /\ sent w' = (sent freshWorld ++ repeat (getTbs_req "BDUSS") (invocations tr))%list)
  /\ (exists c w' tr,
     signTieba (constantTransport 200 (JObject [])) plainQueryString 4
               "BDUSS" "bar" "tbs" 0 freshWorld
       = Some (c, w', tr)
     /\ sent w' = (sent freshWorld
                   ++ repeat (signTieba_req plainQueryString "BDUSS" "bar" "tbs")
                             (invocations tr))%list).
Proof.
  destruct (endpoint_requests_match_attempts
              (constantTransport 200 (JObject [])) counterDeviceId plainQueryString
              "BDUSS" "bar" "tbs" 0 4 freshWorld) as [H1 [H2 [H3 H4]]].
  split; [|split; [|split]]; eexists; eexists; eexists.
  - split; [reflexivity|]. apply H1 with (c := Throw invalidBduss). reflexivity.
  - split; [reflexivity|].
    apply H2 with (c := Throw (Error [Lit "获取贴吧列表失败: ";
                                      Interp (JString "未知错误")])).
    reflexivity.
  - split; [reflexivity|]. apply H3 with (c := Throw tbsFailed). reflexivity.
  - split; [reflexivity|]. apply H4 with (c := Return (JObject [])). reflexivity.
Defined.

(** X9. A rejection by the server with a 4xx status other than 429 (a 401
    or 403, say) is not retried by any of the four operations: after the one
    request the axios error itself is thrown. *)
Theorem endpoint_client_rejection_not_retried {RNG}
    (transport : list Request -> Request -> AxiosResult)
    (generateDeviceId : RNG -> string * RNG)
    (toQueryString : list (string * string) -> string)
    (bduss tiebaName tbs : string) (index : Z) (fuel : nat) (w : World RNG)
    (e : JSError) :
  classify e = ClientError ->
  (transport (sent w) (login_req bduss) = Rejected e ->
   login transport generateDeviceId (S fuel) bduss w
   = Some (Throw e, afterRequest w (login_req bduss),
           [Invoke; ConsoleError (errorLine "验证BDUSS" 1 e)]))
  /\ (transport (sent w) (getTiebaList_req bduss) = Rejected e ->
      getTiebaList transport (S fuel) bduss w
      = Some (Throw e, afterRequest w (getTiebaList_req bduss),
              [Invoke; ConsoleError (errorLine "获取贴吧列表" 1 e)]))
  /\ (transport (sent w) (getTbs_req bduss) = Rejected e ->
      getTbs transport (S fuel) bduss w
      = Some (Throw e, afterRequest w (getTbs_req bduss),
              [Invoke; ConsoleError (errorLine "获取TBS参数" 1 e)]))
  /\ (transport (sent w) (signTieba_req toQueryString bduss tiebaName tbs)
        = Rejected e ->
      signTieba transport toQueryString (S fuel) bduss tiebaName tbs index w
      = Some (Throw e, afterRequest w (signTieba_req toQueryString bduss tiebaName tbs),
              [Invoke; ConsoleError (errorLine "签到操作" 1 e)])).
Proof.
  intros Hcls. split; [|split; [|split]]; intros Ht.
  - apply loop_client_error; [|exact Hcls]. apply login_request_rejected. exact Ht.
  - apply loop_client_error; [|exact Hcls].
    apply getTiebaList_request_rejected. exact Ht.
  - apply loop_client_error; [|exact Hcls]. apply getTbs_request_rejected. exact Ht.
  - apply loop_client_error; [|exact Hcls].
    apply signTieba_request_rejected. exact Ht.
Qed.

Lemma endpoint_client_rejection_not_retried_witness :
  login (rejectingTransport status404) counterDeviceId 1 "BDUSS" freshWorld
  = Some (Throw status404, afterRequest freshWorld (login_req "BDUSS"),
          [Invoke; ConsoleError (errorLine "验证BDUSS" 1 status404)])
  /\ getTiebaList (rejectingTransport status404) 1 "BDUSS" freshWorld
     = Some (Throw status404, afterRequest freshWorld (getTiebaList_req "BDUSS"),
             [Invoke; ConsoleError (errorLine "获取贴吧列表" 1 status404)])
  /\ getTbs (rejectingTransport status404) 1 "BDUSS" freshWorld
     = Some (Throw status404, afterRequest freshWorld (getTbs_req "BDUSS"),
             [Invoke; ConsoleError (errorLine "获取TBS参数" 1 status404)])
  /\ signTieba (rejectingTransport status404) plainQueryString 1
               "BDUSS" "bar" "tbs" 0 freshWorld
     = Some (Throw status404,
             afterRequest freshWorld (signTieba_req plainQueryString "BDUSS" "bar" "tbs"),
             [Invoke; ConsoleError (errorLine "签到操作" 1 status404)]).
Proof.
  destruct (endpoint_client_rejection_not_retried
              (rejectingTransport status404) counterDeviceId plainQueryString
              "BDUSS" "bar" "tbs" 0 0 freshWorld status404 eq_refl)
    as [H1 [H2 [H3 H4]]].
  split; [apply H1; reflexivity|].
  split; [apply H2; reflexivity|].
  split; [apply H3; reflexivity|apply H4; reflexivity].
Defined.

(** X10. [signTieba] recovers from one transient failure: when the first
    request is rejected with a retryable failure and the second is answered
    with a truthy body, that body is returned after two requests and one
    sleep, of 12000 ms after a 429 and of 6000 ms otherwise. *)
Theorem signTieba_recovers_after_one_failure {RNG}
    (transport : list Request -> Request -> AxiosResult)
    (toQueryString : list (string * string) -> string)
    (bduss tiebaName tbs : string) (index : Z) (fuel : nat) (w : World RNG)
    (e : JSError) (st : Z) (payload : JSValue) :
  let req := signTieba_req toQueryString bduss tiebaName tbs in
  transport (sent w) req = Rejected e ->
  retryable e = true ->
  transport (sent w ++ [req])%list req = Resolved (mkResponse st payload) ->
  truthy payload = true ->
  (2 <= fuel)%nat ->
  exists tr,
    signTieba transport toQueryString fuel bduss tiebaName tbs index w
      = Some (Return payload, afterRequest (afterRequest w req) req, tr)
    /\ invocations tr = 2%nat
    /\ sleeps tr = [if isRateLimited e then 12000 else 6000].
Proof.
  intros req Hrej Hretry Hres Htruthy Hfuel.
  pose proof (signTieba_request_rejected transport toQueryString bduss tiebaName
                tbs index w e Hrej) as H1.
  pose proof (signTieba_request_resolved transport toQueryString bduss tiebaName
                tbs index (afterRequest w req) st payload Hres) as H2.
  rewrite Htruthy in H2.
  destruct fuel as [|[|fuel]]; try lia.
  unfold signTieba, withRetry_defaults, withRetry.
  rewrite (loop_retry _ _ _ _ _ _ _ _ _ _ H1 Hretry) by discriminate.
  rewrite (loop_success _ _ _ _ _ _ _ _ _ _ H2). simpl.
  eexists. split; [reflexivity|]. split; [reflexivity|].
  simpl. f_equal. unfold spec_escalate, classify.
  rewrite retryable_tests in Hretry. apply negb_true_iff in Hretry.
  destruct (isRateLimited e); [reflexivity|].
  simpl in Hretry. rewrite Hretry. reflexivity.
Qed.

Lemma signTieba_recovers_after_one_failure_witness :
  exists tr,
    signTieba (flakyTransport status429 200 (JObject [("error_code", JString "0")]%string))
              plainQueryString 2 "BDUSS" "bar" "tbs" 0 freshWorld
      = Some (Return (JObject [("error_code", JString "0")]%string),
              afterRequest
                (afterRequest freshWorld
                              (signTieba_req plainQueryString "BDUSS" "bar" "tbs"))
                (signTieba_req plainQueryString "BDUSS" "bar" "tbs"), tr)
    /\ invocations tr = 2%nat
    /\ sleeps tr = [if isRateLimited status429 then 12000 else 6000].
Proof.
  apply (signTieba_recovers_after_one_failure
           (flakyTransport status429 200 (JObject [("error_code", JString "0")]%string))
           plainQueryString "BDUSS" "bar" "tbs" 0 2 freshWorld status429 200
           (JObject [("error_code", JString "0")]%string)).
  - reflexivity.
  - reflexivity.
  - reflexivity.
  - reflexivity.
  - apply le_n.
Defined.

(** X11. What a returned UserInfo guarantees: [login] returns only when
    some answer of the server had no === 0 and error === "success"; the
    userId is the user_id under data of that answer, status is 200, bduss is
    the credential given, isValid is true. Exactly one device identifier
    has been generated, from the generator as it was at the start (failed
    attempts generate none), and exactly one line has been logged. *)
Theorem login_returns_only_validated {RNG}
    (transport : list Request -> Request -> AxiosResult)
    (generateDeviceId : RNG -> string * RNG) (bduss : string) (fuel : nat)
    (w w' : World RNG) (info : UserInfo) (tr : list Effect) :
  login transport generateDeviceId fuel bduss w = Some (Return info, w', tr) ->
  isValid info = true
  /\ ui_status info = 200
  /\ ui_bduss info = bduss
  /\ deviceId info = fst (generateDeviceId (rng w))
  /\ rng w' = snd (generateDeviceId (rng w))
  /\ console w' = (console w ++ [[Lit "🔐 验证BDUSS成功"]])%list
  /\ exists hist r inner,
       transport hist (login_req bduss) = Resolved r
       /\ getProp (data r) "no" = Return (JNumber 0)
       /\ getProp (data r) "error" = Return (JString "success")
       /\ getProp (data r) "data" = Return inner
       /\ getProp inner "user_id" = Return (userId info).
Proof.
  intros Hrun. apply loop_run in Hrun.
  destruct Hrun as [es [w1 [Hf [_ [_ [Hlast _]]]]]].
  destruct (fails_with_requests _ (login_req bduss)
              (fun w0 e w2 H => login_request_throw transport generateDeviceId
                                                    bduss w0 w2 e H)
              es w w1 Hf) as [_ [Hc Hr]].
  apply login_request_return in Hlast.
  destruct Hlast as [r [inner [Ht [_ [Hno [Herr [Hdata [Huid [Hinfo Hw]]]]]]]]].
  rewrite Hinfo, Hw, Hr, Hc. simpl.
  repeat (split; [reflexivity|]).
  exists (sent w1), r, inner. repeat split; assumption.
Qed.

Lemma login_returns_only_validated_witness :
  isValid (mkUserInfo 200 "BDUSS" (JString "U1") true "device") = true
  /\ ui_status (mkUserInfo 200 "BDUSS" (JString "U1") true "device") = 200
  /\ ui_bduss (mkUserInfo 200 "BDUSS" (JString "U1") true "device") = "BDUSS"%string
  /\ deviceId (mkUserInfo 200 "BDUSS" (JString "U1") true "device")
     = fst (counterDeviceId (rng freshWorld))
  /\ rng (mkWorld [login_req "BDUSS"; login_req "BDUSS"]
                  [[Lit "🔐 验证BDUSS成功"]] 1%nat)
     = snd (counterDeviceId (rng freshWorld))
  /\ console (mkWorld [login_req "BDUSS"; login_req "BDUSS"]
                      [[Lit "🔐 验证BDUSS成功"]] 1%nat)
     = (console freshWorld ++ [[Lit "🔐 验证BDUSS成功"]])%list
  /\ exists hist r inner,
       flakyTransport status500 200 loginSuccessBody hist (login_req "BDUSS")
         = Resolved r
       /\ getProp (data r) "no" = Return (JNumber 0)
       /\ getProp (data r) "error" = Return (JString "success")
       /\ getProp (data r) "data" = Return inner
       /\ getProp inner "user_id"
          = Return (userId (mkUserInfo 200 "BDUSS" (JString "U1") true "device")).
Proof.
  apply (login_returns_only_validated
           (flakyTransport status500 200 loginSuccessBody) counterDeviceId
           "BDUSS" 2 freshWorld
           (mkWorld [login_req "BDUSS"; login_req "BDUSS"]
                    [[Lit "🔐 验证BDUSS成功"]] 1%nat)
           (mkUserInfo 200 "BDUSS" (JString "U1") true "device")
           [Invoke; ConsoleWarn (retryLine "验证BDUSS" 6000 1 3); Sleep 6000; Invoke]).
  reflexivity.
Defined.

(** X12. [login] accepts every answer with no === 0, error === "success"
    and a data value that is neither null nor missing, and does not check
    the user_id: the UserInfo returned after the one call has for userId
    whatever data.user_id is, [undefined] when the field is missing. *)
Theorem login_does_not_check_user_id {RNG}
    (transport : list Request -> Request -> AxiosResult)
    (generateDeviceId : RNG -> string * RNG) (bduss : string) (fuel : nat)
    (w : World RNG) (st : Z) (payload inner uid : JSValue) :
  transport (sent w) (login_req bduss) = Resolved (mkResponse st payload) ->
  getProp payload "no" = Return (JNumber 0) ->
  getProp payload "error" = Return (JString "success") ->
  getProp payload "data" = Return inner ->
  getProp inner "user_id" = Return uid ->
  (1 <= fuel)%nat ->
  exists w',
    login transport generateDeviceId fuel bduss w
    = Some (Return (mkUserInfo 200 bduss uid true (fst (generateDeviceId (rng w)))),
            w', [Invoke]).
Proof.
  intros Ht Hno Herr Hdata Huid Hfuel. eexists.
  apply withRetry_defaults_first_success; [|exact Hfuel].
  apply (login_request_accepts _ _ _ _ st payload inner uid); assumption.
Qed.

Lemma login_does_not_check_user_id_witness :
  exists w',
    login (constantTransport 200
             (JObject [("no", JNumber 0); ("error", JString "success");
                       ("data", JObject [])]%string))
          counterDeviceId 1 "BDUSS" freshWorld
    = Some (Return (mkUserInfo 200 "BDUSS" JUndefined true
                               (fst (counterDeviceId (rng freshWorld)))),
            w', [Invoke]).
Proof.
  apply (login_does_not_check_user_id
           (constantTransport 200
              (JObject [("no", JNumber 0); ("error", JString "success");
                        ("data", JObject [])]%string))
           counterDeviceId "BDUSS" 1 freshWorld 200
           (JObject [("no", JNumber 0); ("error", JString "success");
                     ("data", JObject [])]%string)
           (JObject []) JUndefined);
    reflexivity.
Defined.

(** X13. When the answers to [login] pass the check (no === 0, error ===
    "success") and have no data field, the read of user_id on undefined
    throws a TypeError, which is retried as any failure without a response:
    four requests, sleeps of 6, 12 and 24 seconds, then the TypeError is
    thrown, and no device identifier is generated. *)
Theorem login_missing_data_is_retried {RNG}
    (transport : list Request -> Request -> AxiosResult)
    (generateDeviceId : RNG -> string * RNG) (bduss : string) (fuel : nat)
    (w : World RNG) (st : Z) (payload : JSValue) :
  getProp payload "no" = Return (JNumber 0) ->
  getProp payload "error" = Return (JString "success") ->
  getProp payload "data" = Return JUndefined ->
  (forall hist, transport hist (login_req bduss) = Resolved (mkResponse st payload)) ->
  (4 <= fuel)%nat ->
  exists w' tr,
    login transport generateDeviceId fuel bduss w
      = Some (Throw (TypeError JUndefined "user_id"), w', tr)
    /\ invocations tr = 4%nat
    /\ sleeps tr = [6000; 12000; 24000]
    /\ sent w' = (sent w ++ repeat (login_req bduss) 4)%list
    /\ rng w' = rng w.
Proof.
  intros Hno Herr Hdata Ht Hfuel.
  destruct (withRetry_defaults_always_throws
              (login_request transport generateDeviceId bduss) "验证BDUSS"
              (TypeError JUndefined "user_id")
              (fun w : World RNG => afterRequest w (login_req bduss)))
    with (fuel := fuel) (w := w) as [tr [Hrun [Hinv Hsl]]].
  - intros w0. apply (login_request_no_data _ _ _ _ st payload); auto.
  - reflexivity.
  - exact Hfuel.
  - eexists. exists tr. split; [exact Hrun|]. split; [exact Hinv|].
    split; [exact Hsl|]. simpl. rewrite <- !app_assoc. split; reflexivity.
Qed.

Lemma login_missing_data_is_retried_witness :
  exists w' tr,
    login (constantTransport 200
             (JObject [("no", JNumber 0); ("error", JString "success")]%string))
          counterDeviceId 4 "BDUSS" freshWorld
      = Some (Throw (TypeError JUndefined "user_id"), w', tr)
    /\ invocations tr = 4%nat
    /\ sleeps tr = [6000; 12000; 24000]
    /\ sent w' = (sent freshWorld ++ repeat (login_req "BDUSS") 4)%list
    /\ rng w' = rng freshWorld.
Proof.
  apply (login_missing_data_is_retried
           (constantTransport 200
              (JObject [("no", JNumber 0); ("error", JString "success")]%string))
           counterDeviceId "BDUSS" 4 freshWorld 200
           (JObject [("no", JNumber 0); ("error", JString "success")]%string)).
  - reflexivity.
  - reflexivity.
  - reflexivity.
  - intros hist. reflexivity.
  - apply le_n.
Defined.






(** X16. Failure leaves no trace but the requests: when [login] or
    [getTiebaList] ends in a throw, nothing has been logged and no device
    identifier has been generated; [getTbs] and [signTieba] never log and
    never touch the generator, whether they return or throw. *)
Theorem endpoint_failure_only_sends_requests {RNG}
    (transport : list Request -> Request -> AxiosResult)
    (generateDeviceId : RNG -> string * RNG)
    (toQueryString : list (string * string) -> string)
    (bduss tiebaName tbs : string) (index : Z) (fuel : nat) (w : World RNG) :
  (forall e w' tr,
      login transport generateDeviceId fuel bduss w = Some (Throw e, w', tr) ->
      console w' = console w /\ rng w' = rng w)
  /\ (forall e w' tr,
      getTiebaList transport fuel bduss w = Some (Throw e, w', tr) ->
      console w' = console w /\ rng w' = rng w)
  /\ (forall c w' tr,
      getTbs transport fuel bduss w = Some (c, w', tr) ->
      console w' = console w /\ rng w' = rng w)
  /\ (forall c w' tr,
      signTieba transport toQueryString fuel bduss tiebaName tbs index w
        = Some (c, w', tr) ->
      console w' = console w /\ rng w' = rng w).
Proof.
  split; [|split; [|split]].
  - intros e w' tr Hrun.
    refine (proj2 (run_requests _ (login_req bduss) _ _ _ _ _ _ _ _ _ _ _ _ Hrun)
                  e eq_refl).
    + apply login_request_sent.
    + intros w0 e0 w1 H. eapply login_request_throw. exact H.
  - intros e w' tr Hrun.
    refine (proj2 (run_requests _ (getTiebaList_req bduss)
                                _ _ _ _ _ _ _ _ _ _ _ _ Hrun) e eq_refl).
    + apply getTiebaList_request_sent.
    + intros w0 e0 w1 H. eapply getTiebaList_request_throw. exact H.
  - intros c w' tr Hrun.
    refine (proj2 (run_only_requests _ (getTbs_req bduss)
                                     _ _ _ _ _ _ _ _ _ _ _ Hrun)).
    apply getTbs_request_world.
  - intros c w' tr Hrun.
    refine (proj2 (run_only_requests
                     _ (signTieba_req toQueryString bduss tiebaName tbs)
                     _ _ _ _ _ _ _ _ _ _ _ Hrun)).
    apply signTieba_request_world.
Qed.

Lemma endpoint_failure_only_sends_requests_witness :
  (exists e w' tr,
     login (constantTransport 200 loginFailBody) counterDeviceId 4 "BDUSS" freshWorld
       = Some (Throw e, w', tr)
     /\ console w' = console freshWorld /\ rng w' = rng freshWorld)
  /\ (exists e w' tr,
     getTiebaList (constantTransport 200 loginFailBody) 4 "BDUSS" freshWorld
       = Some (Throw e, w', tr)
     /\ console w' = console freshWorld /\ rng w' = rng freshWorld)
  /\ (exists c w' tr,
     getTbs (constantTransport 200 (JObject [("tbs", JString "abc123")]%string))
            4 "BDUSS" freshWorld
       = Some (c, w', tr)
     /\ console w' = console freshWorld /\ rng w' = rng freshWorld)
  /\ (exists c w' tr,
     signTieba (constantTransport 200 JNull) plainQueryString 4
               "BDUSS" "bar" "tbs" 0 freshWorld
       = Some (c, w', tr)
     /\ console w' = console freshWorld /\ rng w' = rng freshWorld).
Proof.
  split; [|split; [|split]]; eexists; eexists; eexists.
  - split; [reflexivity|].
    apply (proj1 (endpoint_failure_only_sends_requests
                    (constantTransport 200 loginFailBody) counterDeviceId
                    plainQueryString "BDUSS" "bar" "tbs" 0 4 freshWorld)
                 invalidBduss _ _ eq_refl).
  - split; [reflexivity|].
    apply (proj1 (proj2 (endpoint_failure_only_sends_requests
                    (constantTransport 200 loginFailBody) counterDeviceId
                    plainQueryString "BDUSS" "bar" "tbs" 0 4 freshWorld))
                 _ _ _ eq_refl).
  - split; [reflexivity|].
    apply (proj1 (proj2 (proj2 (endpoint_failure_only_sends_requests
                    (constantTransport 200 (JObject [("tbs", JString "abc123")]%string))
                    counterDeviceId
                    plainQueryString "BDUSS" "bar" "tbs" 0 4 freshWorld)))
                 (Return (JString "abc123")) _ _ eq_refl).
  - split; [reflexivity|].
    apply (proj2 (proj2 (proj2 (endpoint_failure_only_sends_requests
                    (constantTransport 200 JNull) counterDeviceId
                    plainQueryString "BDUSS" "bar" "tbs" 0 4 freshWorld)))
                 (Throw emptySignResponse) _ _ eq_refl).
Defined.
